(** * nobrainer.predict: block-wise prediction over volumes

    A shallow embedding of [nobrainer/predict.py] and the properties of
    its dispatch, batching loop and predictor resolution.

    Layout:
    - [Py]: the fragment of the Python runtime the module relies on
      (exceptions, unbound locals, [range], slice bounds, a monad for
      calls that log events and may raise);
    - [Np]: n-dimensional arrays as a dtype tag, a shape and row-major
      data, with slicing and slice assignment along the first axis;
    - [PathLib]: pure POSIX paths ([suffix], [parent], [str]);
    - [Keras]: when drawing the progress bar raises;
    - [Predict]: the functions of [predict.py], over the collaborators
      the file imports ([nobrainer.volume], nibabel, TensorFlow);
    - [Ref]: a concrete instance of the collaborators, used to run the
      functions on explicit inputs;
    - [Props]: the theorems. *)

From Stdlib Require Import ZArith List String Ascii Bool Lia.
From Stdlib Require QArith.
Import ListNotations.

Set Implicit Arguments.
Set Default Goal Selector "!".

(* ===================================================================== *)
(** ** Python runtime fragment                                            *)
(* ===================================================================== *)

Module Py.

(** Exceptions that the module raises itself or that the interpreter
    raises on its behalf.  [Raised] stands for any other exception coming
    out of a collaborator. *)
Inductive exn : Type :=
| ValueError (msg : string)
| TypeError (msg : string)
| FileNotFoundError (msg : string)
| UnboundLocalError (var : string)
| ZeroDivisionError
| KeyError (key : string)
| IndexError
| OverflowError (msg : string)
| Raised (what : string).

Inductive result (A : Type) : Type :=
| Ok (a : A)
| Err (e : exn).
Arguments Ok {A} a.
Arguments Err {A} e.

(** A call runs against the log of events seen so far; it returns a value
    or raises, and in both cases leaves the extended log behind. *)
Definition M (E A : Type) : Type := list E -> result A * list E.

Definition ret {E A} (a : A) : M E A := fun tr => (Ok a, tr).

Definition bind {E A B} (c : M E A) (k : A -> M E B) : M E B :=
  fun tr =>
    match c tr with
    | (Ok a, tr') => k a tr'
    | (Err e, tr') => (Err e, tr')
    end.

Definition raise {E A} (e : exn) : M E A := fun tr => (Err e, tr).

Definition emit {E} (ev : E) : M E unit := fun tr => (Ok tt, tr ++ [ev]).

(** A collaborator that computes a value or raises, with no event. *)
Definition lift {E A} (r : result A) : M E A := fun tr => (r, tr).

(** [try: c except Exception: h] *)
Definition try_except {E A} (c : M E A) (h : exn -> M E A) : M E A :=
  fun tr =>
    match c tr with
    | (Ok a, tr') => (Ok a, tr')
    | (Err e, tr') => h e tr'
    end.

(** Reading a local variable that no executed statement has bound. *)
Definition read_local {E A} (name : string) (v : option A) : M E A :=
  match v with
  | Some a => ret a
  | None => raise (UnboundLocalError name)
  end.

(** [for j in js: s = body(j, s)] *)
Fixpoint for_each {E S J} (js : list J) (body : J -> S -> M E S) (s : S)
  : M E S :=
  match js with
  | [] => ret s
  | j :: js' => bind (body j s) (for_each js' body)
  end.

(** [range(start, stop, step)]: the values [start], [start + step], ...
    strictly before [stop] in the direction of [step].  At most
    [|stop - start|] values exist since [|step| >= 1]. *)
Fixpoint range_from (fuel : nat) (j stop step : Z) : list Z :=
  match fuel with
  | O => []
  | S fuel' =>
      if (if 0 <? step then j <? stop else stop <? j)%Z
      then j :: range_from fuel' (j + step)%Z stop step
      else []
  end.

Definition range (start stop step : Z) : result (list Z) :=
  if (step =? 0)%Z then Err (ValueError "range() arg 3 must not be zero")
  else Ok (range_from (Z.to_nat (Z.abs (stop - start))) start stop step).

(** [math.ceil(n / d)] on integers ([n / d] is true division). *)
Definition ceil_div (n d : Z) : result Z :=
  if (d =? 0)%Z then Err ZeroDivisionError
  else Ok (- ((- n) / d))%Z.

(** Bounds of [a[lo:hi]] on an axis of length [n]: a negative bound counts
    from the end, and both are clipped to [0, n].  Returns the first index
    and the number of selected positions. *)
Definition clip (n : nat) (i : Z) : Z :=
  if (i <? 0)%Z then Z.max (i + Z.of_nat n) 0 else Z.min i (Z.of_nat n).

Definition slice_bounds (n : nat) (lo hi : Z) : nat * nat :=
  let start := clip n lo in
  let stop := clip n hi in
  (Z.to_nat start, Z.to_nat (stop - start)).

(** Lookup in a [dict] given as an association list. *)
Fixpoint getitem {A} (d : list (string * A)) (key : string) : result A :=
  match d with
  | [] => Err (KeyError key)
  | (k, v) :: d' => if String.eqb k key then Ok v else getitem d' key
  end.

End Py.

Declare Scope py_scope.
Delimit Scope py_scope with py.
Notation "x <- c ;; k" := (Py.bind c (fun x => k))
  (at level 100, c at next level, right associativity) : py_scope.
Notation "c ;; k" := (Py.bind c (fun _ => k))
  (at level 100, right associativity) : py_scope.

(* ===================================================================== *)
(** ** Arrays                                                             *)
(* ===================================================================== *)

Module Np.
Import Py.

(** Voxel values stay abstract: the module never computes with them, it
    only moves and converts them.  [cast src dst] is the value conversion
    of [astype] and of assignment into an array of another dtype. *)
Class Scalar : Type := {
  elt : Type;
  zero : elt;
  cast : string -> string -> elt -> elt
}.

Section Arrays.
Context `{Scalar}.

Record ndarray : Type := mk_ndarray {
  dtype : string;
  shape : list nat;
  data : list elt   (* row-major *)
}.

Definition size (s : list nat) : nat := fold_right Nat.mul 1 s.

(** The data holds exactly one value per index. *)
Definition wf (a : ndarray) : Prop := List.length (data a) = size (shape a).

Definition zeros_like (a : ndarray) : ndarray :=
  mk_ndarray (dtype a) (shape a) (repeat zero (List.length (data a))).

(** [a[..., None]] *)
Definition add_axis (a : ndarray) : ndarray :=
  mk_ndarray (dtype a) (shape a ++ [1]) (data a).

(** [a.shape[0]] *)
Definition shape0 (a : ndarray) : result nat :=
  match shape a with
  | [] => Err IndexError
  | n :: _ => Ok n
  end.

(** [a.astype(d)] *)
Definition astype (a : ndarray) (d : string) : ndarray :=
  mk_ndarray d (shape a) (map (cast (dtype a) d) (data a)).

(** [a[lo:hi]] *)
Definition getitem_slice0 (a : ndarray) (lo hi : Z) : result ndarray :=
  match shape a with
  | [] => Err IndexError
  | n :: rest =>
      let '(start, len) := slice_bounds n lo hi in
      let row := size rest in
      Ok (mk_ndarray (dtype a) (len :: rest)
            (firstn (len * row) (skipn (start * row) (data a))))
  end.

(** *** Broadcasting of an assigned value *)

Fixpoint chunks {A} (k count : nat) (d : list A) : list (list A) :=
  match count with
  | O => []
  | S c => firstn k d :: chunks k c (skipn k d)
  end.

Fixpoint list_eqb (s t : list nat) : bool :=
  match s, t with
  | [], [] => true
  | x :: s', y :: t' => (x =? y) && list_eqb s' t'
  | _, _ => false
  end.

(** Assignment drops leading axes of length 1 that the target lacks and
    adds missing leading axes. *)
Fixpoint strip_ones (extra : nat) (vs : list nat) : list nat :=
  match extra, vs with
  | S e, 1 :: vs' => strip_ones e vs'
  | _, _ => vs
  end.

Definition align (vs ts : list nat) : list nat :=
  let vs := strip_ones (List.length vs - List.length ts) vs in
  repeat 1 (List.length ts - List.length vs) ++ vs.

Definition broadcastable (vs ts : list nat) : bool :=
  (List.length vs =? List.length ts)
  && forallb (fun p => (fst p =? snd p) || (fst p =? 1)) (combine vs ts).

Fixpoint broadcast_data (vs ts : list nat) (d : list elt) : list elt :=
  match vs, ts with
  | v :: vs', t :: ts' =>
      let rows := map (broadcast_data vs' ts') (chunks (size vs') v d) in
      if v =? t then List.concat rows else List.concat (repeat (List.concat rows) t)
  | _, _ => d
  end.

Definition broadcast_to (v : ndarray) (ts : list nat) : result (list elt) :=
  if list_eqb (shape v) ts then Ok (data v)
  else
    let vs := align (shape v) ts in
    if broadcastable vs ts then Ok (broadcast_data vs ts (data v))
    else Err (ValueError "could not broadcast input array").

(** [a[lo:hi] = v]: [v] is broadcast to the shape of the slice and its
    values are converted to the dtype of [a]. *)
Definition setitem_slice0 (a : ndarray) (lo hi : Z) (v : ndarray)
  : result ndarray :=
  match shape a with
  | [] => Err IndexError
  | n :: rest =>
      let '(start, len) := slice_bounds n lo hi in
      let row := size rest in
      match broadcast_to v (len :: rest) with
      | Err e => Err e
      | Ok vd =>
          Ok (mk_ndarray (dtype a) (shape a)
                (firstn (start * row) (data a)
                 ++ map (cast (dtype v) (dtype a)) vd
                 ++ skipn ((start + len) * row) (data a)))
      end
  end.

End Arrays.
End Np.

(* ===================================================================== *)
(** ** Paths                                                              *)
(* ===================================================================== *)

(** [pathlib.Path] on a POSIX system, as far as [predict.py] uses it:
    construction from a string, [suffix], [parent] and [str]. *)
Module PathLib.
Local Open Scope string_scope.

Record path : Type := mk_path {
  root : string;          (* "", "/" or "//" *)
  parts : list string     (* the components after the root *)
}.

Fixpoint split_on (sep : ascii) (s : string) : list string :=
  match s with
  | EmptyString => [EmptyString]
  | String c s' =>
      if Ascii.eqb c sep then EmptyString :: split_on sep s'
      else match split_on sep s' with
           | [] => [String c EmptyString]
           | w :: ws => String c w :: ws
           end
  end.

Fixpoint leading_slashes (s : string) : nat :=
  match s with
  | String c s' => if Ascii.eqb c "/"%char then S (leading_slashes s') else 0
  | EmptyString => 0
  end.

(** Empty components and ["."] components are dropped; exactly two leading
    slashes are kept as the root ["//"], any other number gives ["/"]. *)
Definition Path (s : string) : path :=
  mk_path
    (match leading_slashes s with
     | 0 => ""
     | 2 => "//"
     | _ => "/"
     end)
    (filter (fun w => negb (String.eqb w "" || String.eqb w "."))
       (split_on "/"%char s)).

Definition str (p : path) : string :=
  match root p, parts p with
  | EmptyString, [] => "."
  | r, ps => r ++ String.concat "/" ps
  end.

(** The final component, if any. *)
Definition name (p : path) : string := last (parts p) "".

(** [s.rfind(c)]: the index of the last occurrence. *)
Fixpoint rfind (c : ascii) (s : string) : option nat :=
  match s with
  | EmptyString => None
  | String x s' =>
      match rfind c s' with
      | Some i => Some (S i)
      | None => if Ascii.eqb x c then Some 0 else None
      end
  end.

(** The last dot-separated portion of the final component, with its dot;
    a dot that starts or ends the name does not start a suffix. *)
Definition suffix (p : path) : string :=
  let n := name p in
  match rfind "."%char n with
  | Some i =>
      if ((0 <? i) && (i <? String.length n - 1))%nat
      then substring i (String.length n - i) n
      else ""
  | None => ""
  end.

Definition parent (p : path) : path :=
  match parts p with
  | [] => p
  | ps => mk_path (root p) (removelast ps)
  end.

End PathLib.

(* ===================================================================== *)
(** ** Progress bar                                                       *)
(* ===================================================================== *)

(** [tf.keras.utils.Progbar], as far as [predict.py] uses it.  A bar is
    created with a target; [update] and [add] draw it (the first [update]
    always does, later calls may skip the drawing when they come in quick
    succession and the count is below the target).  Drawing formats the
    count in a field of [int(np.floor(np.log10(target))) + 1] digits: the
    logarithm of a negative target is not a number and that of zero is
    minus infinity, and the conversion of either to an integer raises.
    With a positive target nothing is raised. *)
Module Keras.
Import Py.

Definition draw (target : Z) : result unit :=
  if (target <? 0)%Z
  then Err (ValueError "cannot convert float NaN to integer")
  else if (target =? 0)%Z
  then Err (OverflowError "cannot convert float infinity to integer")
  else Ok tt.

End Keras.

(* ===================================================================== *)
(** ** predict.py                                                         *)
(* ===================================================================== *)

Module Predict.
Import Py Np.
Local Open Scope py_scope.

Definition DT_X : string := "float32".
Definition _INFERENCE_CLASSES_KEY : string := "class_ids".

(** The values of the spatial metadata that are carried and not
    computed with: the affine, the extra mapping, a voxel size and the
    fields that a header class has beyond data dtype, shape and zooms. *)
Class Meta : Type := {
  affine_t : Type;
  extra_t : Type;
  zoom_t : Type;
  unit_zoom : zoom_t;                 (* 1.0 *)
  zoom_negative : zoom_t -> bool;
  fields_t : Type;
  no_fields : fields_t
}.

Section Program.
Context `{Scalar} `{Meta}.

(** A nibabel header: its class, what every header class provides
    ([get_data_dtype], [get_data_shape], [get_zooms]) and the fields of
    its own ([descrip], [qform_code], ... for a [Nifti1Header]; none for
    a plain [SpatialHeader]). *)
Record header_t : Type := mk_header {
  header_class : string;
  data_dtype : string;
  data_shape : list nat;
  zooms : list zoom_t;
  fields : fields_t
}.

(** [nibabel.spatialimages.SpatialImage] *)
Record SpatialImage : Type := mk_SpatialImage {
  dataobj : ndarray;
  affine : affine_t;
  header : header_t;
  extra : extra_t
}.

(** [SpatialHeader.set_data_shape(shape)]: zooms are cut or completed
    with 1.0 to one per axis. *)
Definition set_data_shape (h : header_t) (shape : list nat) : header_t :=
  match shape with
  | [] => mk_header (header_class h) (data_dtype h) [0] [unit_zoom] (fields h)
  | _ =>
      mk_header (header_class h) (data_dtype h) shape
        (firstn (List.length shape) (zooms h)
         ++ repeat unit_zoom (List.length shape - List.length (zooms h)))
        (fields h)
  end.

(** [SpatialHeader.from_header(header)]: a header of exactly this class is
    copied; from a header of any other class a new [SpatialHeader] is made
    out of its data dtype, shape and zooms, and nothing else. *)
Definition from_header (h : header_t) : result header_t :=
  if String.eqb (header_class h) "SpatialHeader" then Ok h
  else
    let shape := match data_shape h with [] => [0] | s => s end in
    if negb (List.length (zooms h) =? List.length shape)
    then Err (Raised "HeaderDataError: wrong number of zoom values")
    else if existsb zoom_negative (zooms h)
    then Err (Raised "HeaderDataError: zooms must be positive")
    else Ok (mk_header "SpatialHeader" (data_dtype h) shape (zooms h)
               no_fields).

(** [SpatialImage.update_header()] *)
Definition update_header (h : header_t) (shape : list nat) : header_t :=
  if list_eqb (data_shape h) shape then h else set_data_shape h shape.

(** [nib.spatialimages.SpatialImage(dataobj, affine, header, extra)], for
    the affine of an image: the header is rebuilt by [from_header] and
    brought in line with the shape of the data. *)
Definition SpatialImage_init (dataobj : ndarray) (affine : affine_t)
    (header : header_t) (extra : extra_t) : result SpatialImage :=
  match from_header header with
  | Ok h =>
      Ok (mk_SpatialImage dataobj affine
            (update_header h (shape dataobj)) extra)
  | Err e => Err e
  end.

(** A [Predictor] object: called with a dict of input arrays, it returns a
    dict of output arrays. *)
Definition Predictor : Type :=
  list (string * ndarray) -> result (list (string * ndarray)).

(** The run-time values that reach the [isinstance] tests. *)
#[local] Set Warnings "-register-all".
Inductive pyobj : Type :=
| PyArray (a : ndarray)              (* np.ndarray *)
| PyImage (img : SpatialImage)       (* nib.spatialimages.SpatialImage *)
| PyStr (s : string)                 (* str *)
| PyPath (p : PathLib.path)          (* pathlib.Path, os.PathLike *)
| PySeq (l : list pyobj)             (* list or tuple *)
| PyPredictor (p : Predictor)        (* tf.contrib.predictor Predictor *)
| PyInt (z : Z)
| PyNone.

(** The calls that reach outside the module, in the order they are made.
    A call is recorded when it is made, also when it then raises. *)
Inductive event : Type :=
| EvLoadModel (path : string)        (* from_saved_model(path) *)
| EvLoadImage (path : string)        (* nib.load(path) *)
| EvUncache                          (* img.uncache() *)
| EvProgbar (target : Z)             (* Progbar(target) *)
| EvProgbarUpdate (current : Z)      (* progbar.update(current) *)
| EvProgbarAdd (n : Z)               (* progbar.add(n) *)
| EvPredict (chunk : ndarray).       (* predictor({'volume': chunk}) *)

Definition is_EvPredict (ev : event) : bool :=
  match ev with EvPredict _ => true | _ => false end.

(** What [predict.py] imports: the block partition and the default
    normalizer of [nobrainer.volume], the SavedModel loader of TensorFlow,
    the file system and the image loader of nibabel. *)
Class Collaborators : Type := {
  to_blocks : ndarray -> list nat -> result ndarray;
  from_blocks : ndarray -> list nat -> result ndarray;
  normalize_zero_one : ndarray -> result ndarray;
  from_saved_model : string -> result Predictor;
  is_file : string -> bool;
  nib_load : string -> result SpatialImage;
  (* [nib.load] handed a path-like object *)
  nib_load_pathlike : PathLib.path -> result SpatialImage
}.

Context `{Collaborators}.

Definition normalizer_t : Type := option (ndarray -> result ndarray).

(** [Path(o)] accepts a string or a path-like object and raises
    [TypeError] otherwise. *)
Definition Path_of (o : pyobj) : result PathLib.path :=
  match o with
  | PyStr s => Ok (PathLib.Path s)
  | PyPath p => Ok p
  | _ => Err (TypeError "expected str, bytes or os.PathLike object")
  end.

Definition _get_predictor (predictor : pyobj) : M event Predictor :=
  match predictor with
  | PyPredictor p => ret p
  | _ =>
      try_except
        (path <- lift (Path_of predictor) ;;
         let path :=
           if String.eqb (PathLib.suffix path) ".pb"
           then PathLib.parent path else path in
         emit (EvLoadModel (PathLib.str path)) ;;
         lift (from_saved_model (PathLib.str path)))
        (fun _ =>
           raise (ValueError
             "Failed to load predictor. Is `predictor` a path to a saved model?"))
  end.

(** [predictor({'volume': chunk})[_INFERENCE_CLASSES_KEY]]: the value the
    call produces, and the call as an event of the run. *)
Definition infer (predictor : Predictor) (chunk : ndarray) : result ndarray :=
  match predictor [("volume"%string, chunk)] with
  | Ok out => getitem out _INFERENCE_CLASSES_KEY
  | Err e => Err e
  end.

Definition call_predictor (predictor : Predictor) (chunk : ndarray)
  : M event ndarray :=
  emit (EvPredict chunk) ;;
  lift (infer predictor chunk).

(** [progbar.update(current)] and [progbar.add(n)], on a bar created
    with [target]. *)
Definition progbar_update (target current : Z) : M event unit :=
  emit (EvProgbarUpdate current) ;;
  lift (Keras.draw target).

Definition progbar_add (target n : Z) : M event unit :=
  emit (EvProgbarAdd n) ;;
  lift (Keras.draw target).

(** One pass of the body of the [for] loop, at index [j]; [progbar] is
    the target of the bar. *)
Definition predict_chunk (predictor : Predictor) (features : ndarray)
    (batch_size : Z) (progbar : Z) (j : Z) (outputs : ndarray)
  : M event ndarray :=
  chunk <- lift (getitem_slice0 features j (j + batch_size)) ;;
  y <- call_predictor predictor chunk ;;
  outputs <- lift (setitem_slice0 outputs j (j + batch_size) y) ;;
  progbar_add progbar 1 ;;
  ret outputs.

Definition predict_from_array (inputs : ndarray) (predictor : Predictor)
    (block_shape : list nat) (normalizer : normalizer_t) (batch_size : Z)
  : M event ndarray :=
  (* [features] is bound only inside the [if normalizer:] branch *)
  features <- match normalizer with
              | Some f => v <- lift (f inputs) ;; ret (Some v)
              | None => ret None
              end ;;
  features <- read_local "features" features ;;
  features <- lift (to_blocks features block_shape) ;;
  let outputs := zeros_like features in
  let features := add_axis features in
  n_blocks <- lift (shape0 features) ;;
  n_batches <- lift (ceil_div (Z.of_nat n_blocks) batch_size) ;;
  emit (EvProgbar n_batches) ;;
  progbar_update n_batches 0 ;;
  js <- lift (range 0 (Z.of_nat n_blocks) batch_size) ;;
  outputs <- for_each js
               (predict_chunk predictor features batch_size n_batches)
               outputs ;;
  lift (from_blocks outputs (shape inputs)).

Definition predict_from_img (img : pyobj) (predictor : Predictor)
    (block_shape : list nat) (normalizer : normalizer_t) (batch_size : Z)
    (dtype : option string) : M event SpatialImage :=
  match img with
  | PyImage img =>
      let inputs := dataobj img in
      let inputs :=
        match dtype with
        | Some d => astype inputs d
        | None => inputs
        end in
      emit EvUncache ;;
      y <- predict_from_array inputs predictor block_shape normalizer
             batch_size ;;
      lift (SpatialImage_init y (affine img) (header img) (extra img))
  | _ => raise (ValueError "image is not a nibabel image type")
  end.

(** The [dtype] parameter is accepted, and the call to [predict_from_img]
    is made without it, so that the default [DT_X] applies there. *)
Definition predict_from_filepath (filepath : pyobj) (predictor : Predictor)
    (block_shape : list nat) (normalizer : normalizer_t) (batch_size : Z)
    (dtype : option string) : M event SpatialImage :=
  path <- lift (Path_of filepath) ;;
  if negb (is_file (PathLib.str path))
  then raise (FileNotFoundError
                ("could not find file "
                 ++ match filepath with
                    | PyStr s => s
                    | PyPath p => PathLib.str p
                    | _ => ""
                    end)%string)
  else
    match filepath with
    | PyStr s =>
        emit (EvLoadImage s) ;;
        img <- lift (nib_load s) ;;
        predict_from_img (PyImage img) predictor block_shape normalizer
          batch_size (Some DT_X)
    | PyPath p =>
        emit (EvLoadImage (PathLib.str p)) ;;
        img <- lift (nib_load_pathlike p) ;;
        predict_from_img (PyImage img) predictor block_shape normalizer
          batch_size (Some DT_X)
    | _ => raise (TypeError "expected str, bytes or os.PathLike object")
    end.

(** A generator object: the arguments of the call and the file paths not
    yet visited.  Calling the generator function runs none of its body. *)
Record filepaths_generator : Type := mk_generator {
  gen_filepaths : list pyobj;
  gen_predictor : Predictor;
  gen_block_shape : list nat;
  gen_normalizer : normalizer_t;
  gen_batch_size : Z;
  gen_dtype : option string
}.

Definition predict_from_filepaths (filepaths : list pyobj)
    (predictor : Predictor) (block_shape : list nat)
    (normalizer : normalizer_t) (batch_size : Z) (dtype : option string)
  : filepaths_generator :=
  mk_generator filepaths predictor block_shape normalizer batch_size dtype.

(** [next(g)]: [None] once the paths are exhausted. *)
Definition generator_next (g : filepaths_generator)
  : M event (option (SpatialImage * filepaths_generator)) :=
  match gen_filepaths g with
  | [] => ret None
  | filepath :: rest =>
      img <- predict_from_filepath filepath (gen_predictor g)
               (gen_block_shape g) (gen_normalizer g) (gen_batch_size g)
               (gen_dtype g) ;;
      ret (Some (img,
                 mk_generator rest (gen_predictor g) (gen_block_shape g)
                   (gen_normalizer g) (gen_batch_size g) (gen_dtype g)))
  end.

(** What [predict] hands back. *)
Inductive prediction : Type :=
| OutArray (a : ndarray)
| OutImage (img : SpatialImage)
| OutGenerator (g : filepaths_generator).

(** [out] is bound by whichever branch runs.  The array branch passes
    [normalize_zero_one], not the [normalizer] parameter. *)
Definition predict (inputs : pyobj) (predictor : pyobj)
    (block_shape : list nat) (normalizer : normalizer_t) (batch_size : Z)
    (dtype : option string) : M event prediction :=
  predictor <- _get_predictor predictor ;;
  out <- match inputs with
         | PyArray a =>
             y <- predict_from_array a predictor block_shape
                    (Some normalize_zero_one) batch_size ;;
             ret (Some (OutArray y))
         | PyImage _ =>
             y <- predict_from_img inputs predictor block_shape normalizer
                    batch_size dtype ;;
             ret (Some (OutImage y))
         | PyStr _ =>
             y <- predict_from_filepath inputs predictor block_shape
                    normalizer batch_size dtype ;;
             ret (Some (OutImage y))
         | PySeq l =>
             ret (Some (OutGenerator
                          (predict_from_filepaths l predictor block_shape
                             normalizer batch_size dtype)))
         | _ => ret None
         end ;;
  read_local "out" out.

(** *** Vocabulary of the properties *)

(** The [isinstance] test of [predict_from_img]. *)
Definition is_SpatialImage (o : pyobj) : bool :=
  match o with PyImage _ => true | _ => false end.

(** The four [isinstance] tests of [predict]. *)
Definition recognized (o : pyobj) : bool :=
  match o with
  | PyArray _ | PyImage _ | PyStr _ | PySeq _ => true
  | _ => false
  end.

(** The predictor was never invoked during a run that left [tr]. *)
Definition never_predicted (tr : list event) : Prop :=
  forallb (fun ev => negb (is_EvPredict ev)) tr = true.

Definition all_zero (a : ndarray) : Prop := Forall (eq zero) (data a).

(** [predictor] handles the blocks of the batch [features] one by one:
    on every run of consecutive blocks it returns the matching run of
    [full], its labels for the whole batch. *)
Definition blockwise_on (predictor : Predictor) (features full : ndarray)
  : Prop :=
  forall (n : nat) (lo hi : Z) (chunk : ndarray),
    shape0 features = Ok n ->
    (0 <= lo < Z.of_nat n)%Z -> (lo < hi)%Z ->
    getitem_slice0 features lo hi = Ok chunk ->
    infer predictor chunk = getitem_slice0 full lo hi.

(** What the output batch holds once [full] has been written into it. *)
Definition stored (blocks full : ndarray) : ndarray :=
  mk_ndarray (dtype blocks) (shape blocks)
    (map (cast (dtype full) (dtype blocks)) (data full)).

(** The output batch once its first [m] blocks have been written. *)
Definition filled (blocks full : ndarray) (m : nat) : ndarray :=
  let row := size (tl (shape blocks)) in
  mk_ndarray (dtype blocks) (shape blocks)
    (firstn (m * row) (data (stored blocks full))
     ++ skipn (m * row) (data (zeros_like blocks))).

(** *** Iterating the generator, and counting events *)

(** Up to [k] calls of [next] on the generator: the images obtained and
    the generator as it is left.  The iteration stops when the paths are
    exhausted, and at the first call that raises. *)
Fixpoint generator_take (k : nat) (g : filepaths_generator)
  : M event (list SpatialImage * filepaths_generator) :=
  match k with
  | O => ret ([], g)
  | S k' =>
      r <- generator_next g ;;
      match r with
      | None => ret ([], g)
      | Some (img, g') =>
          more <- generator_take k' g' ;;
          ret (img :: fst more, snd more)
      end
  end.

(** The test of [_get_predictor] and of [Path]: a [Predictor] is kept, a
    string or a path-like object is a path, any other value is neither. *)
Definition loadable (o : pyobj) : bool :=
  match o with
  | PyPredictor _ | PyStr _ | PyPath _ => true
  | _ => false
  end.

(** The message of the [ValueError] of [_get_predictor]. *)
Definition load_failure : string :=
  "Failed to load predictor. Is `predictor` a path to a saved model?".

Definition is_EvProgbarAdd (ev : event) : bool :=
  match ev with EvProgbarAdd _ => true | _ => false end.

Definition count_events (p : event -> bool) (evs : list event) : nat :=
  List.length (filter p evs).

(** The events of the batching loop: the progress bar and the predictor. *)
Definition is_loop_event (ev : event) : bool :=
  match ev with
  | EvProgbar _ | EvProgbarUpdate _ | EvProgbarAdd _ | EvPredict _ => true
  | _ => false
  end.

(** A call of the predictor on at least one and at most [batch_size]
    blocks; events of another kind pass. *)
Definition chunk_within (batch_size : Z) (ev : event) : bool :=
  match ev with
  | EvPredict chunk =>
      match shape chunk with
      | m :: _ => (1 <=? m)%nat && (Z.of_nat m <=? batch_size)%Z
      | [] => false
      end
  | _ => true
  end.

End Program.
End Predict.

(* ===================================================================== *)
(** ** A concrete instance of the collaborators                           *)
(* ===================================================================== *)

Module Ref.
Import QArith.
Local Close Scope Q_scope.
Import Py Np Predict.

(** Voxel values as exact rationals.  The runs below use values that
    every dtype involved represents exactly, so conversion between dtypes
    leaves a value as it is. *)
#[export] Instance scalar : Scalar := {
  elt := Q;
  zero := 0%Q;
  cast := fun _ _ x => x
}.

#[export] Instance meta : Meta := {
  affine_t := list (list Z);
  extra_t := list (string * string);
  zoom_t := Q;
  unit_zoom := 1%Q;
  zoom_negative := fun z => negb (Qle_bool 0 z);
  fields_t := list (string * string);
  no_fields := []
}.

Definition all_positive (s : list nat) : bool := forallb (Nat.ltb 0) s.

(** Modelled from the spec: [nobrainer.volume.to_blocks] is not part of
    [predict.py].  Partition of a 3-D array into non-overlapping blocks of
    shape [block_shape], blocks in row-major order of their position and
    voxels in row-major order inside a block; no padding and no partial
    block. *)
Definition to_blocks (a : ndarray) (block_shape : list nat) : result ndarray :=
  match shape a, block_shape with
  | [X; Y; Z], [bx; by_; bz] =>
      if all_positive block_shape
         && (X mod bx =? 0)%nat && (Y mod by_ =? 0)%nat && (Z mod bz =? 0)%nat
      then
        let nx := (X / bx)%nat in
        let ny := (Y / by_)%nat in
        let nz := (Z / bz)%nat in
        Ok (mk_ndarray (dtype a) [(nx * ny * nz)%nat; bx; by_; bz]
              (flat_map (fun i => flat_map (fun j => flat_map (fun k =>
               flat_map (fun u => flat_map (fun v => map (fun w =>
                 nth (((i * bx + u) * Y + (j * by_ + v)) * Z + (k * bz + w))%nat
                     (data a) zero)
               (seq 0 bz)) (seq 0 by_)) (seq 0 bx))
               (seq 0 nz)) (seq 0 ny)) (seq 0 nx)))
      else Err (ValueError "cannot reshape array into blocks")
  | _, _ => Err (ValueError "cannot reshape array into blocks")
  end.

(** Modelled from the spec: [nobrainer.volume.from_blocks] is not part of
    [predict.py].  The inverse rearrangement: a batch of blocks back into
    an array of shape [output_shape]. *)
Definition from_blocks (a : ndarray) (output_shape : list nat)
  : result ndarray :=
  match shape a, output_shape with
  | [n; bx; by_; bz], [X; Y; Z] =>
      if all_positive [bx; by_; bz]
         && (X mod bx =? 0)%nat && (Y mod by_ =? 0)%nat && (Z mod bz =? 0)%nat
         && (n =? (X / bx) * (Y / by_) * (Z / bz))%nat
      then
        let ny := (Y / by_)%nat in
        let nz := (Z / bz)%nat in
        Ok (mk_ndarray (dtype a) output_shape
              (flat_map (fun x => flat_map (fun y => map (fun z =>
                 nth ((((x / bx) * ny + y / by_) * nz + z / bz)
                        * (bx * by_ * bz)
                      + ((x mod bx) * by_ + y mod by_) * bz + z mod bz)%nat
                     (data a) zero)
               (seq 0 Z)) (seq 0 Y)) (seq 0 X)))
      else Err (ValueError "cannot reshape blocks into array")
  | _, _ => Err (ValueError "This function only works for four-dimensional arrays.")
  end.

Definition qmin (l : list Q) : Q :=
  fold_right (fun x m => if Qle_bool x m then x else m) (hd 0%Q l) l.
Definition qmax (l : list Q) : Q :=
  fold_right (fun x m => if Qle_bool m x then x else m) (hd 0%Q l) l.

(** Modelled from the spec: [nobrainer.volume.normalize_zero_one] is not
    part of [predict.py].  Rescaling of the values of a non-constant array
    to [0, 1], with exact rationals in place of floating-point numbers;
    the result is a floating-point array. *)
Definition normalize_zero_one (a : ndarray) : result ndarray :=
  let lo := qmin (data a) in
  let hi := qmax (data a) in
  Ok (mk_ndarray
        (if String.eqb (dtype a) "float32" then "float32" else "float64")
        (shape a)
        (map (fun x => Qred ((x - lo) / (hi - lo))) (data a))).

(** A predictor that labels every voxel with its own value: the output
    block of a block depends on that block alone. *)
Definition voxelwise_predictor : Predictor :=
  fun feed =>
    match getitem feed "volume" with
    | Ok x => Ok [("class_ids"%string,
                   mk_ndarray "int64" (removelast (shape x)) (data x))]
    | Err e => Err e
    end.

(** A predictor that labels every voxel with the number of blocks of the
    chunk it was called on. *)
Definition chunk_size_predictor : Predictor :=
  fun feed =>
    match getitem feed "volume" with
    | Ok x => Ok [("class_ids"%string,
                   mk_ndarray "int64" (removelast (shape x))
                     (map (fun _ => inject_Z (Z.of_nat (hd 0%nat (shape x))))
                        (data x)))]
    | Err e => Err e
    end.

Definition the_affine : list (list Z) :=
  [[1; 0; 0; 0]; [0; 1; 0; 0]; [0; 0; 1; 0]; [0; 0; 0; 1]]%Z.

(** A 2x2x2 volume of [int16] values. *)
Definition volume8 : ndarray :=
  mk_ndarray "int16" [2; 2; 2]%nat
    (map inject_Z [0; 2; 4; 6; 8; 10; 12; 16]%Z).

(** The image of a NIfTI file: its header has fields of its own. *)
Definition image8 : SpatialImage :=
  mk_SpatialImage volume8 the_affine
    (mk_header "Nifti1Header" "int16" [2; 2; 2]%nat [1%Q; 1%Q; 1%Q]
       [("descrip"%string, "T1w"%string)])
    [("subject"%string, "01"%string)].

(** One image file and one SavedModel directory exist. *)
#[export] Instance collaborators : Collaborators := {
  Predict.to_blocks := to_blocks;
  Predict.from_blocks := from_blocks;
  Predict.normalize_zero_one := normalize_zero_one;
  from_saved_model := fun p =>
    if String.eqb p "/models/brain" then Ok voxelwise_predictor
    else Err (Raised "OSError: SavedModel file does not exist");
  is_file := fun p => String.eqb p "/data/t1.nii";
  nib_load := fun p =>
    if String.eqb p "/data/t1.nii" then Ok image8
    else Err (Raised "ImageFileError");
  nib_load_pathlike := fun p =>
    if String.eqb (PathLib.str p) "/data/t1.nii" then Ok image8
    else Err (Raised "ImageFileError")
}.

(** The identity as a normalizer. *)
Definition keep : ndarray -> result ndarray := fun a => Ok a.

(** A 4x4x4 volume of [float32] values, and its partition into eight
    blocks of shape 2x2x2. *)
Definition volume64 : ndarray :=
  mk_ndarray "float32" [4; 4; 4]%nat
    (map (fun i => inject_Z (Z.of_nat i)) (seq 0 64)).

Definition blocks64 : ndarray :=
  Eval vm_compute in
    match to_blocks volume64 [2; 2; 2]%nat with
    | Ok b => b
    | Err _ => volume64
    end.

(** The labels of [voxelwise_predictor] for a whole batch. *)
Definition voxelwise_labels (blocks : ndarray) : ndarray :=
  mk_ndarray "int64" (shape blocks) (data blocks).

(** A predictor whose session fails on every call. *)
Definition failing_predictor : Predictor :=
  fun _ => Err (Raised "InvalidArgumentError").

(** A predictor of a model exported without the ["class_ids"] output. *)
Definition probabilities_predictor : Predictor :=
  fun feed =>
    match getitem feed "volume" with
    | Ok x => Ok [("probabilities"%string,
                   mk_ndarray "float32" (removelast (shape x)) (data x))]
    | Err e => Err e
    end.

(** The path of the image that exists, and a path that does not. *)
Definition t1 : pyobj := PyStr "/data/t1.nii".
Definition missing : pyobj := PyStr "/data/missing.nii".

Definition two_files : filepaths_generator :=
  predict_from_filepaths [t1; t1] voxelwise_predictor [1; 1; 1]%nat
    (Some keep) 4 (Some DT_X).

Definition second_missing : filepaths_generator :=
  predict_from_filepaths [t1; missing; t1] voxelwise_predictor [1; 1; 1]%nat
    (Some keep) 4 (Some DT_X).

(** The first three blocks of [blocks64], as the loop slices them. *)
Definition first_chunk64 : ndarray :=
  Eval vm_compute in
    match getitem_slice0 (add_axis blocks64) 0 3 with
    | Ok c => c
    | Err _ => blocks64
    end.

End Ref.

(* ===================================================================== *)
(** ** Properties                                                         *)
(* ===================================================================== *)

Module Props.
Import Py Np Predict.
Local Open Scope py_scope.

(** *** The runtime fragment on small inputs *)

Example range_forward_steps : range 0 8 3 = Ok [0; 3; 6]%Z.
Proof. reflexivity. Qed.

Example range_one_batch : range 0 8 8 = Ok [0%Z].
Proof. reflexivity. Qed.

Example range_negative_step : range 0 8 (-3) = Ok [].
Proof. reflexivity. Qed.

Example range_downwards : range 5 0 (-2) = Ok [5; 3; 1]%Z.
Proof. reflexivity. Qed.

Example ceil_div_up : ceil_div 8 3 = Ok 3%Z.
Proof. reflexivity. Qed.

Example ceil_div_negative : ceil_div 8 (-3) = Ok (-2)%Z.
Proof. reflexivity. Qed.

Example ceil_div_by_zero : ceil_div 8 0 = Err ZeroDivisionError.
Proof. reflexivity. Qed.

Example slice_bounds_last_chunk : slice_bounds 8 6 9 = (6, 2)%nat.
Proof. reflexivity. Qed.

Example slice_bounds_from_end : slice_bounds 8 (-3) (-1) = (5, 2)%nat.
Proof. reflexivity. Qed.

(** *** Suffix of a path *)

Section Paths.
Import PathLib.
Local Open Scope string_scope.

Example path_model_pb :
  let p := Path "/models/brain/saved_model.pb" in
  (name p, suffix p, str (parent p))
  = ("saved_model.pb", ".pb", "/models/brain").
Proof. reflexivity. Qed.

Example path_relative_pb :
  let p := Path "saved_model.pb" in (suffix p, str (parent p)) = (".pb", ".").
Proof. reflexivity. Qed.

Example path_directory :
  let p := Path "/models/brain/" in (suffix p, str p) = ("", "/models/brain").
Proof. reflexivity. Qed.

Example path_dot_file :
  let p := Path "/models/.pb" in (name p, suffix p) = (".pb", "").
Proof. reflexivity. Qed.

Lemma length_append (a b : string) :
  String.length (a ++ b) = (String.length a + String.length b)%nat.
Proof. induction a as [|c a IH]; cbn; [reflexivity | now rewrite IH]. Qed.

Lemma rfind_dot_pb (stem : string) :
  rfind "." (stem ++ ".pb") = Some (String.length stem).
Proof.
  induction stem as [|c stem IH]; cbn; [reflexivity|].
  cbn in IH. now rewrite IH.
Qed.

Lemma substring_append_r (a b : string) (n : nat) :
  substring (String.length a) n (a ++ b) = substring 0 n b.
Proof. induction a as [|c a IH]; cbn; [reflexivity | exact IH]. Qed.

(** A final component made of a non-empty stem followed by [".pb"] has
    the suffix [".pb"]. *)
Lemma suffix_of_stem_pb (p : path) (stem : string) :
  stem <> "" -> name p = stem ++ ".pb" -> suffix p = ".pb".
Proof.
  intros Hstem Hname. unfold suffix. rewrite Hname, rfind_dot_pb.
  rewrite length_append. cbn [String.length].
  destruct stem as [|c stem]; [contradiction|].
  cbn [String.length].
  replace ((0 <? S (String.length stem))%nat
           && (S (String.length stem) <? S (String.length stem) + 3 - 1)%nat)
    with true.
  - replace (S (String.length stem) + 3 - S (String.length stem))%nat
      with 3%nat by lia.
    change (S (String.length stem)) with (String.length (String c stem)).
    rewrite substring_append_r. reflexivity.
  - symmetry. apply andb_true_intro. split; apply Nat.ltb_lt; lia.
Qed.

Lemma substring_whole_tail (s : string) (i : nat) :
  (i <= String.length s)%nat ->
  s = substring 0 i s ++ substring i (String.length s - i) s.
Proof.
  revert i. induction s as [|c s IH]; intros i Hi.
  - destruct i; reflexivity.
  - destruct i as [|i]; cbn.
    + f_equal. clear. induction s as [|d s IH]; cbn; [reflexivity|].
      now f_equal.
    + f_equal. apply IH. cbn in Hi. lia.
Qed.

(** Conversely, the suffix [".pb"] only arises that way: the bare name
    [".pb"] has no suffix. *)
Lemma suffix_pb_inv (p : path) :
  suffix p = ".pb" ->
  exists stem, stem <> "" /\ name p = stem ++ ".pb".
Proof.
  unfold suffix. intros Hs.
  destruct (rfind "." (name p)) as [i|]; [|discriminate Hs].
  destruct ((0 <? i)%nat && (i <? String.length (name p) - 1)%nat) eqn:Hi;
    [|discriminate Hs].
  apply andb_prop in Hi. destruct Hi as [H0 H1].
  apply Nat.ltb_lt in H0. apply Nat.ltb_lt in H1.
  exists (substring 0 i (name p)). split.
  - destruct i as [|i]; [lia|].
    destruct (name p); cbn in *; [lia | discriminate].
  - rewrite <- Hs. apply substring_whole_tail. lia.
Qed.

End Paths.

Section Dispatch.
Context {S : Scalar} {Mt : Meta} {C : Collaborators}.

(** C8.  Given a path whose final component has the suffix [".pb"],
    [_get_predictor] loads the SavedModel from the parent directory of
    that path, and from nowhere else: the one load it attempts is logged
    with the parent directory, and its outcome is the outcome of the
    call (any failure of the load being reported as [ValueError]). *)
Theorem get_predictor_loads_from_parent :
  forall s tr,
    PathLib.suffix (PathLib.Path s) = ".pb"%string ->
    _get_predictor (PyStr s) tr
    = (match from_saved_model
               (PathLib.str (PathLib.parent (PathLib.Path s))) with
       | Ok p => Ok p
       | Err _ =>
           Err (ValueError
             "Failed to load predictor. Is `predictor` a path to a saved model?")
       end,
       tr ++ [EvLoadModel (PathLib.str (PathLib.parent (PathLib.Path s)))]).
Proof.
  intros s tr Hs. unfold _get_predictor, try_except, bind, emit, lift, raise.
  cbn. rewrite Hs. cbn.
  destruct (from_saved_model _); reflexivity.
Qed.

(** A path without that suffix is handed to the loader as it is. *)
Lemma get_predictor_loads_from_path :
  forall s tr,
    PathLib.suffix (PathLib.Path s) <> ".pb"%string ->
    snd (_get_predictor (PyStr s) tr)
    = tr ++ [EvLoadModel (PathLib.str (PathLib.Path s))].
Proof.
  intros s tr Hs. unfold _get_predictor, try_except, bind, emit, lift, raise.
  cbn. destruct (String.eqb_spec (PathLib.suffix (PathLib.Path s)) ".pb");
    [contradiction|].
  destruct (from_saved_model _); reflexivity.
Qed.

(** C2.  Without a normalizer the local [features] is never bound, and
    the first statement that reads it raises [UnboundLocalError]: the
    volume is not used as the features and no prediction is produced. *)
Theorem no_normalizer_unbound_features :
  forall inputs predictor block_shape batch_size tr,
    predict_from_array inputs predictor block_shape None batch_size tr
    = (Err (UnboundLocalError "features"), tr).
Proof. intros. reflexivity. Qed.

(** On an array, [predict] runs [predict_from_array] with
    [normalize_zero_one], whatever [normalizer] it was given. *)
Lemma predict_array_normalizer_fixed :
  forall a predictor block_shape normalizer batch_size dtype tr,
    predict (PyArray a) predictor block_shape normalizer batch_size dtype tr
    = (p <- _get_predictor predictor ;;
       y <- predict_from_array a p block_shape (Some normalize_zero_one)
              batch_size ;;
       ret (OutArray y)) tr.
Proof.
  intros. unfold predict, bind.
  destruct (_get_predictor predictor tr) as [[p | e] tr1]; [|reflexivity].
  destruct (predict_from_array a p block_shape (Some normalize_zero_one)
              batch_size tr1) as [[y | e] tr2]; reflexivity.
Qed.

(** The [dtype] given to [predict_from_filepath] has no effect: the image
    is predicted with the default [DT_X]. *)
Lemma predict_from_filepath_dtype_fixed :
  forall filepath predictor block_shape normalizer batch_size d1 d2 tr,
    predict_from_filepath filepath predictor block_shape normalizer
      batch_size d1 tr
    = predict_from_filepath filepath predictor block_shape normalizer
        batch_size d2 tr.
Proof. intros. reflexivity. Qed.

(** For a file that exists and loads, [predict_from_filepath] is
    [predict_from_img] on the loaded image with [dtype = DT_X]. *)
Lemma predict_from_filepath_delegates :
  forall s img predictor block_shape normalizer batch_size dtype tr,
    is_file (PathLib.str (PathLib.Path s)) = true ->
    nib_load s = Ok img ->
    predict_from_filepath (PyStr s) predictor block_shape normalizer
      batch_size dtype tr
    = predict_from_img (PyImage img) predictor block_shape normalizer
        batch_size (Some DT_X) (tr ++ [EvLoadImage s]).
Proof.
  intros s img predictor block_shape normalizer batch_size dtype tr
    Hfile Hload.
  unfold predict_from_filepath, bind, lift, emit. cbn.
  now rewrite Hfile, Hload.
Qed.

(** C6, as amended.  An argument that is not a spatial image makes
    [predict_from_img] raise [ValueError] with the message
    ["image is not a nibabel image type"], before any other step: the log
    of events is left as it was. *)
Theorem predict_from_img_rejects_non_image :
  forall img predictor block_shape normalizer batch_size dtype tr,
    is_SpatialImage img = false ->
    predict_from_img img predictor block_shape normalizer batch_size dtype tr
    = (Err (ValueError "image is not a nibabel image type"), tr).
Proof.
  intros img predictor block_shape normalizer batch_size dtype tr Himg.
  destruct img; try discriminate Himg; reflexivity.
Qed.

(** C7, as amended.  When [inputs] passes none of the four [isinstance]
    tests, [predict] resolves the predictor, takes no branch, and the
    closing [return out] reads a local that was never bound: the call
    raises [UnboundLocalError] and returns no value.  (If the predictor
    cannot be resolved, the [ValueError] of [_get_predictor] comes
    first.) *)
Theorem predict_unrecognized_input :
  forall inputs predictor block_shape normalizer batch_size dtype tr,
    recognized inputs = false ->
    predict inputs predictor block_shape normalizer batch_size dtype tr
    = (_ <- _get_predictor predictor ;; raise (UnboundLocalError "out")) tr.
Proof.
  intros inputs predictor block_shape normalizer batch_size dtype tr Hin.
  unfold predict, bind.
  destruct (_get_predictor predictor tr) as [[p | e] tr1]; [|reflexivity].
  destruct inputs; try discriminate Hin; reflexivity.
Qed.

Lemma from_header_inv (h h' : header_t) :
  from_header h = Ok h' ->
  header_class h' = "SpatialHeader"%string
  /\ data_dtype h' = data_dtype h
  /\ zooms h' = zooms h
  /\ (data_shape h <> [] -> data_shape h' = data_shape h)
  /\ fields h'
     = (if String.eqb (header_class h) "SpatialHeader"
        then fields h else no_fields).
Proof.
  unfold from_header.
  destruct (String.eqb_spec (header_class h) "SpatialHeader") as [Hc | Hc].
  - intros Heq. injection Heq as <-. auto.
  - destruct (negb _); [discriminate|].
    destruct (existsb _ _); [discriminate|].
    intros Heq. injection Heq as <-. cbn.
    repeat split; auto. intros Hs. now destruct (data_shape h).
Qed.

Lemma update_header_same (h : header_t) (shape : list nat) :
  header_class (update_header h shape) = header_class h
  /\ data_dtype (update_header h shape) = data_dtype h
  /\ fields (update_header h shape) = fields h
  /\ (data_shape h = shape -> update_header h shape = h).
Proof.
  unfold update_header, set_data_shape.
  destruct (list_eqb (data_shape h) shape) eqn:Heq.
  - auto.
  - repeat split; try (destruct shape; reflexivity).
    intros <-.
    assert (Hrefl : forall s : list nat, list_eqb s s = true)
      by (induction s as [|x s IH]; cbn;
          [reflexivity | now rewrite Nat.eqb_refl, IH]).
    now rewrite Hrefl in Heq.
Qed.

(** C9, as amended.  Whenever [predict_from_img] returns, the image it
    returns has the affine and the extra mapping of the input image, and
    its data is what [predict_from_array] returned.  Its header is not the
    header of the input: it is a [SpatialHeader] rebuilt from the data
    dtype, the shape and the zooms of that header.  The data dtype is
    carried; the shape and the zooms are carried when the prediction has
    the shape the header records; the fields of the header's own class
    are carried only if that class is [SpatialHeader] itself. *)
Theorem predict_from_img_rebuilds_header :
  forall img predictor block_shape normalizer batch_size dtype tr out tr',
    predict_from_img (PyImage img) predictor block_shape normalizer
      batch_size dtype tr = (Ok out, tr') ->
    affine out = affine img
    /\ extra out = extra img
    /\ header_class (header out) = "SpatialHeader"%string
    /\ data_dtype (header out) = data_dtype (header img)
    /\ fields (header out)
       = (if String.eqb (header_class (header img)) "SpatialHeader"
          then fields (header img) else no_fields)
    /\ (data_shape (header img) = shape (dataobj out) ->
        data_shape (header img) <> [] ->
        data_shape (header out) = data_shape (header img)
        /\ zooms (header out) = zooms (header img))
    /\ fst (predict_from_array
              (match dtype with
               | Some d => astype (dataobj img) d
               | None => dataobj img
               end)
              predictor block_shape normalizer batch_size (tr ++ [EvUncache]))
       = Ok (dataobj out).
Proof.
  intros img predictor block_shape normalizer batch_size dtype tr out tr' Hrun.
  unfold predict_from_img, bind, emit in Hrun. cbn in Hrun.
  destruct (predict_from_array _ predictor block_shape normalizer batch_size _)
    as [[y | e] tr1] eqn:Hy; [|discriminate Hrun].
  unfold lift, SpatialImage_init in Hrun.
  destruct (from_header (header img)) as [h | e] eqn:Hh; [|discriminate Hrun].
  injection Hrun as <- _. cbn [affine extra header dataobj fst].
  apply from_header_inv in Hh.
  destruct Hh as (Hclass & Hdtype & Hzooms & Hshape & Hfields).
  destruct (update_header_same h (shape y)) as (Uclass & Udtype & Ufields & Usame).
  rewrite Uclass, Udtype, Ufields.
  repeat split; try assumption; try reflexivity.
  - rewrite Usame by (rewrite Hshape; assumption). now apply Hshape.
  - rewrite Usame by (rewrite Hshape; assumption). exact Hzooms.
Qed.

End Dispatch.

(** *** The batching loop *)

Section Loop.
Context {S : Scalar} {Mt : Meta} {C : Collaborators}.

Lemma bind_ok_inv {A B} (c : M event A) (k : A -> M event B) tr b tr' :
  bind c k tr = (Ok b, tr') ->
  exists a tr1, c tr = (Ok a, tr1) /\ k a tr1 = (Ok b, tr').
Proof.
  unfold bind. destruct (c tr) as [[a | e] tr1]; [|discriminate].
  intros Hk. now exists a, tr1.
Qed.

Lemma shape0_add_axis (a : ndarray) :
  shape0 (add_axis a) = Ok (hd 1%nat (shape a)).
Proof. unfold shape0, add_axis. cbn. now destruct (shape a). Qed.

Lemma range_backwards_empty (n : nat) (step : Z) :
  (step < 0)%Z -> range 0 (Z.of_nat n) step = Ok [].
Proof.
  intros Hstep. unfold range.
  destruct (Z.eqb_spec step 0); [lia|].
  destruct (Z.to_nat (Z.abs (Z.of_nat n - 0))); cbn; [reflexivity|].
  destruct (Z.ltb_spec 0 step); [lia|].
  destruct (Z.ltb_spec (Z.of_nat n) 0); [lia|]. reflexivity.
Qed.

Lemma ceil_div_negative_step (n : nat) (step : Z) :
  (step < 0)%Z -> (- (- Z.of_nat n / step) <= 0)%Z.
Proof.
  intros Hstep.
  replace step with (- - step)%Z by lia.
  rewrite Z.div_opp_opp by lia.
  assert (0 <= Z.of_nat n / - step)%Z by (apply Z.div_pos; lia). lia.
Qed.

Lemma ceil_div_positive (n : nat) (step : Z) :
  0 < n -> (0 < step)%Z -> (0 < - (- Z.of_nat n / step))%Z.
Proof.
  intros Hn Hstep.
  assert (- Z.of_nat n / step < 0)%Z
    by (apply Z.div_lt_upper_bound; lia).
  lia.
Qed.

Lemma draw_positive (target : Z) :
  (0 < target)%Z -> Keras.draw target = Ok tt.
Proof.
  intros Ht. unfold Keras.draw.
  destruct (Z.ltb_spec target 0); [lia|].
  now destruct (Z.eqb_spec target 0); [lia|].
Qed.

(** C10, as amended.  With a negative [batch_size] (and a normalizer and a
    partition that succeed) the target of the progress bar,
    [ceil(n_blocks / batch_size)], is zero or negative, and the first
    drawing of the bar in [progbar.update(0)] raises: [ValueError] for a
    negative target, [OverflowError] for zero.  The call ends there: the
    loop is not reached, the predictor is never invoked and no prediction
    is returned. *)
Theorem negative_batch_size_raises :
  forall inputs predictor block_shape f batch_size feats blocks tr,
    (batch_size < 0)%Z ->
    f inputs = Ok feats ->
    to_blocks feats block_shape = Ok blocks ->
    let target := (- (- Z.of_nat (hd 1%nat (shape blocks)) / batch_size))%Z in
    (target <= 0)%Z
    /\ predict_from_array inputs predictor block_shape (Some f) batch_size tr
       = (Err (if (target <? 0)%Z
               then ValueError "cannot convert float NaN to integer"
               else OverflowError "cannot convert float infinity to integer"),
          tr ++ [EvProgbar target; EvProgbarUpdate 0])
    /\ never_predicted [EvProgbar target; EvProgbarUpdate 0].
Proof.
  intros inputs predictor block_shape f batch_size feats blocks tr
    Hneg Hf Hto target.
  assert (Htarget : (target <= 0)%Z)
    by (apply ceil_div_negative_step; exact Hneg).
  split; [exact Htarget|]. split; [|reflexivity].
  cbv beta iota delta [predict_from_array bind lift ret read_local emit
                       progbar_update].
  rewrite Hf. cbv beta iota. rewrite Hto. cbv beta iota zeta.
  rewrite shape0_add_axis.
  unfold ceil_div. destruct (Z.eqb_spec batch_size 0); [lia|].
  cbv beta iota. fold target. unfold Keras.draw.
  destruct (Z.ltb_spec target 0).
  - now rewrite <- app_assoc.
  - destruct (Z.eqb_spec target 0); [|lia]. now rewrite <- app_assoc.
Qed.

(** C4.  [from_blocks] returns an array of the [output_shape] it is asked
    for; [predict_from_array] asks for the shape of its input.  So every
    prediction it returns has the shape of the input volume. *)
Theorem prediction_has_input_shape :
  forall inputs predictor block_shape normalizer batch_size tr out tr',
    (forall a s r, from_blocks a s = Ok r -> shape r = s) ->
    predict_from_array inputs predictor block_shape normalizer batch_size tr
    = (Ok out, tr') ->
    shape out = shape inputs.
Proof.
  intros inputs predictor block_shape normalizer batch_size tr out tr'
    Hshape Hrun.
  unfold predict_from_array in Hrun.
  repeat (apply bind_ok_inv in Hrun; destruct Hrun as (? & ? & _ & Hrun)).
  unfold lift in Hrun. injection Hrun as Hfrom _.
  eapply Hshape, Hfrom.
Qed.

End Loop.

(** *** Independence of the batch size *)

Section Splice.
Context {A : Type}.

(** Overwriting the positions [a .. b) of a list that already agrees with
    [Y] before [a] and with [Z] from [a] on. *)
Lemma splice (Y Z : list A) (a b : nat) :
  a <= b -> b <= List.length Y ->
  firstn a (firstn a Y ++ skipn a Z)
    ++ firstn (b - a) (skipn a Y)
    ++ skipn b (firstn a Y ++ skipn a Z)
  = firstn b Y ++ skipn b Z.
Proof.
  intros Hab HbY.
  assert (Hlen : List.length (firstn a Y) = a)
    by (rewrite length_firstn; lia).
  rewrite firstn_app, skipn_app, Hlen, firstn_firstn, Nat.min_id.
  replace (a - a) with 0 by lia. cbn [firstn]. rewrite app_nil_r.
  rewrite (skipn_all2 (firstn a Y)) by lia. cbn [app].
  rewrite skipn_skipn. replace (b - a + a) with b by lia.
  rewrite app_assoc. f_equal.
  rewrite firstn_skipn_comm. replace (a + (b - a)) with b by lia.
  replace (firstn a Y) with (firstn a (firstn b Y))
    by (rewrite firstn_firstn; f_equal; lia).
  apply firstn_skipn.
Qed.

End Splice.

Section BatchSize.
Context {S : Scalar} {Mt : Meta} {C : Collaborators}.

Lemma list_eqb_refl (s : list nat) : list_eqb s s = true.
Proof.
  induction s as [|x s IH]; cbn; [reflexivity|].
  now rewrite Nat.eqb_refl, IH.
Qed.

Lemma size_app_one (s : list nat) : size (s ++ [1]) = size s.
Proof.
  unfold size. induction s as [|x s IH]; cbn; [reflexivity | now rewrite IH].
Qed.

Lemma slice_bounds_forward (n : nat) (j step : Z) :
  (0 <= j < Z.of_nat n)%Z -> (0 < step)%Z ->
  slice_bounds n j (j + step)
  = (Z.to_nat j,
     Z.to_nat (Z.min (j + step) (Z.of_nat n)) - Z.to_nat j).
Proof.
  intros Hj Hstep. unfold slice_bounds, clip.
  destruct (Z.ltb_spec j 0); [lia|].
  destruct (Z.ltb_spec (j + step) 0); [lia|].
  f_equal; lia.
Qed.

Lemma getitem_slice0_at (a : ndarray) (m : nat) (tl : list nat)
    (lo hi : Z) (start len : nat) :
  shape a = m :: tl ->
  slice_bounds m lo hi = (start, len) ->
  getitem_slice0 a lo hi
  = Ok (mk_ndarray (dtype a) (len :: tl)
          (firstn (len * size tl) (skipn (start * size tl) (data a)))).
Proof.
  intros Ha Hb. unfold getitem_slice0. now rewrite Ha, Hb.
Qed.

(** Assigning a value that has the shape of the slice. *)
Lemma setitem_slice0_at (a v : ndarray) (m : nat) (tl : list nat)
    (lo hi : Z) (start len : nat) :
  shape a = m :: tl ->
  slice_bounds m lo hi = (start, len) ->
  shape v = len :: tl ->
  setitem_slice0 a lo hi v
  = Ok (mk_ndarray (dtype a) (shape a)
          (firstn (start * size tl) (data a)
           ++ map (cast (dtype v) (dtype a)) (data v)
           ++ skipn ((start + len) * size tl) (data a))).
Proof.
  intros Ha Hb Hv. unfold setitem_slice0, broadcast_to.
  now rewrite Ha, Hb, Hv, list_eqb_refl.
Qed.

(** The batch and the labels of the loop, with what the partition and the
    predictor are assumed to deliver. *)
Variables (predictor : Predictor) (blocks full : ndarray).
Variables (n : nat) (rest : list nat).
Hypothesis Hshape : shape blocks = n :: rest.
Hypothesis Hfull : shape full = shape blocks.
Hypothesis Hwf : wf blocks.
Hypothesis Hwf_full : wf full.
Hypothesis Hblockwise : blockwise_on predictor (add_axis blocks) full.

Lemma length_stored : List.length (data (stored blocks full)) = n * size rest.
Proof.
  unfold stored. cbn. rewrite length_map, Hwf_full, Hfull, Hshape.
  reflexivity.
Qed.

Lemma length_zeros : List.length (data (zeros_like blocks)) = n * size rest.
Proof.
  unfold zeros_like. cbn. rewrite repeat_length, Hwf, Hshape. reflexivity.
Qed.

Lemma filled_none : filled blocks full 0 = zeros_like blocks.
Proof. reflexivity. Qed.

Lemma filled_all : filled blocks full n = stored blocks full.
Proof.
  unfold filled. rewrite Hshape. cbn [tl].
  rewrite firstn_all2 by (rewrite length_stored; lia).
  rewrite skipn_all2 by (rewrite length_zeros; lia).
  rewrite app_nil_r. unfold stored. now rewrite Hshape.
Qed.

(** One pass of the loop body writes the blocks [j .. min (j + step) n). *)
Lemma predict_chunk_fills (step target j : Z) (tr : list event) :
  (0 < step)%Z -> (0 < target)%Z -> (0 <= j < Z.of_nat n)%Z ->
  exists tr',
    predict_chunk predictor (add_axis blocks) step target j
      (filled blocks full (Z.to_nat j)) tr
    = (Ok (filled blocks full (Z.to_nat (Z.min (j + step) (Z.of_nat n)))),
       tr').
Proof.
  intros Hstep Htarget Hj.
  pose proof (slice_bounds_forward n Hj Hstep) as Hbounds.
  set (s := Z.to_nat j) in *.
  set (e := Z.to_nat (Z.min (j + step) (Z.of_nat n))) in *.
  assert (Hse : s <= e) by lia.
  assert (Hen : e <= n) by lia.
  assert (Hchunk : exists chunk,
             getitem_slice0 (add_axis blocks) j (j + step) = Ok chunk).
  { erewrite getitem_slice0_at by (try exact Hbounds; cbn; now rewrite Hshape).
    eauto. }
  destruct Hchunk as [chunk Hchunk].
  assert (Hinfer : infer predictor chunk
                   = Ok (mk_ndarray (dtype full) ((e - s) :: rest)
                           (firstn ((e - s) * size rest)
                              (skipn (s * size rest) (data full))))).
  { rewrite (Hblockwise (n := n) (lo := j) (hi := (j + step)%Z));
      [ | unfold shape0, add_axis; cbn; now rewrite Hshape
        | exact Hj | lia | exact Hchunk ].
    apply getitem_slice0_at with (m := n);
      [now rewrite Hfull | exact Hbounds]. }
  eexists.
  unfold predict_chunk, call_predictor, progbar_add, bind, lift, emit, ret.
  rewrite Hchunk, Hinfer.
  erewrite setitem_slice0_at;
    [ | exact Hshape | exact Hbounds | reflexivity ].
  rewrite (draw_positive Htarget).
  f_equal. unfold filled. cbn [shape dtype data]. rewrite Hshape. cbn [tl].
  do 2 f_equal.
  rewrite <- firstn_map, <- skipn_map.
  change (map (cast (dtype full) (dtype blocks)) (data full))
    with (data (stored blocks full)).
  replace ((s + (e - s)) * size rest) with (e * size rest) by nia.
  replace ((e - s) * size rest) with (e * size rest - s * size rest) by nia.
  apply splice; [nia | rewrite length_stored; nia].
Qed.

(** The loop, entered at index [j] with the blocks before [j] written,
    ends with every block written. *)
Lemma loop_fills (step target : Z) (fuel : nat) :
  (0 < step)%Z -> (0 < target)%Z ->
  forall (j : Z) (tr : list event),
    (0 <= j)%Z -> (Z.of_nat n - j <= Z.of_nat fuel)%Z ->
    exists tr',
      for_each (range_from fuel j (Z.of_nat n) step)
        (predict_chunk predictor (add_axis blocks) step target)
        (filled blocks full (Z.to_nat (Z.min j (Z.of_nat n)))) tr
      = (Ok (filled blocks full n), tr').
Proof.
  intros Hstep Htarget.
  induction fuel as [|fuel IH]; intros j tr Hj Hfuel.
  - cbn. replace (Z.to_nat (Z.min j (Z.of_nat n))) with n by lia.
    unfold ret. eauto.
  - cbn [range_from]. destruct (Z.ltb_spec 0 step); [|lia].
    destruct (Z.ltb_spec j (Z.of_nat n)) as [Hlt | Hge].
    + cbn [for_each]. unfold bind.
      replace (Z.min j (Z.of_nat n)) with j by lia.
      assert (Hin : (0 <= j < Z.of_nat n)%Z) by lia.
      destruct (predict_chunk_fills tr Hstep Htarget Hin) as [tr1 Hstep1].
      rewrite Hstep1.
      assert (Hnext : (0 <= j + step)%Z) by lia.
      assert (Hleft : (Z.of_nat n - (j + step) <= Z.of_nat fuel)%Z) by lia.
      destruct (IH (j + step)%Z tr1 Hnext Hleft) as [tr2 Hrest].
      exists tr2. exact Hrest.
    + cbn. replace (Z.to_nat (Z.min j (Z.of_nat n))) with n by lia.
      unfold ret. eauto.
Qed.

End BatchSize.

Section BatchSizeResult.
Context {S : Scalar} {Mt : Meta} {C : Collaborators}.

Lemma range_forward (n : nat) (step : Z) :
  (0 < step)%Z ->
  range 0 (Z.of_nat n) step = Ok (range_from n 0 (Z.of_nat n) step).
Proof.
  intros Hstep. unfold range. destruct (Z.eqb_spec step 0); [lia|].
  do 2 f_equal. lia.
Qed.

Lemma ceil_div_defined (n d : Z) :
  d <> 0%Z -> ceil_div n d = Ok (- (- n / d))%Z.
Proof. intros Hd. unfold ceil_div. now destruct (Z.eqb_spec d 0). Qed.

(** With a predictor that handles the blocks one by one, and at least
    one block, the call returns what [from_blocks] makes of the labels of
    the whole batch, for every positive batch size. *)
Lemma predict_from_array_blockwise :
  forall inputs predictor block_shape f feats blocks full n rest
         batch_size tr,
    f inputs = Ok feats ->
    to_blocks feats block_shape = Ok blocks ->
    shape blocks = n :: rest ->
    0 < n ->
    shape full = shape blocks ->
    wf blocks -> wf full ->
    blockwise_on predictor (add_axis blocks) full ->
    (0 < batch_size)%Z ->
    fst (predict_from_array inputs predictor block_shape (Some f)
           batch_size tr)
    = from_blocks (stored blocks full) (shape inputs).
Proof.
  intros inputs predictor block_shape f feats blocks full n rest bs tr
    Hf Hto Hshape Hn Hfull Hwf Hwf_full Hbw Hbs.
  pose proof (ceil_div_positive Hn Hbs) as Htarget.
  cbv beta iota delta [predict_from_array bind lift ret read_local emit
                       progbar_update].
  rewrite Hf. cbv beta iota. rewrite Hto. cbv beta iota zeta.
  rewrite shape0_add_axis, Hshape. cbn [hd].
  rewrite ceil_div_defined by lia. cbv beta iota.
  rewrite (draw_positive Htarget). cbv beta iota.
  rewrite range_forward by exact Hbs. cbv beta iota.
  rewrite <- (filled_none blocks full).
  assert (H0 : (0 <= 0)%Z) by lia.
  assert (Hfuel : (Z.of_nat n - 0 <= Z.of_nat n)%Z) by lia.
  destruct (loop_fills Hshape Hfull Hwf_full Hbw n Hbs Htarget
              ((tr ++ [EvProgbar (- (- Z.of_nat n / bs))])
                 ++ [EvProgbarUpdate 0]) H0 Hfuel)
    as [tr' Hloop].
  replace (Z.to_nat (Z.min 0 (Z.of_nat n))) with 0%nat in Hloop by lia.
  rewrite Hloop. cbv beta iota.
  rewrite (filled_all Hshape Hfull Hwf Hwf_full). reflexivity.
Qed.

(** A batch of no block: the target of the progress bar is zero and its
    first drawing raises, whatever the batch size. *)
Lemma predict_from_array_no_block :
  forall inputs predictor block_shape f feats blocks rest batch_size tr,
    f inputs = Ok feats ->
    to_blocks feats block_shape = Ok blocks ->
    shape blocks = 0 :: rest ->
    (0 < batch_size)%Z ->
    fst (predict_from_array inputs predictor block_shape (Some f)
           batch_size tr)
    = Err (OverflowError "cannot convert float infinity to integer").
Proof.
  intros inputs predictor block_shape f feats blocks rest bs tr
    Hf Hto Hshape Hbs.
  cbv beta iota delta [predict_from_array bind lift ret read_local emit
                       progbar_update].
  rewrite Hf. cbv beta iota. rewrite Hto. cbv beta iota zeta.
  rewrite shape0_add_axis, Hshape. cbn [hd].
  rewrite ceil_div_defined by lia. cbv beta iota.
  change (- Z.of_nat 0)%Z with 0%Z. rewrite Z.div_0_l by lia.
  reflexivity.
Qed.

(** A batch without a first axis: the slice of the labels fails, on the
    first and only pass, whatever the batch size. *)
Lemma predict_from_array_no_axis :
  forall inputs predictor block_shape f feats blocks full batch_size tr,
    f inputs = Ok feats ->
    to_blocks feats block_shape = Ok blocks ->
    shape blocks = [] ->
    shape full = shape blocks ->
    blockwise_on predictor (add_axis blocks) full ->
    (0 < batch_size)%Z ->
    fst (predict_from_array inputs predictor block_shape (Some f)
           batch_size tr)
    = Err IndexError.
Proof.
  intros inputs predictor block_shape f feats blocks full bs tr
    Hf Hto Hshape Hfull Hbw Hbs.
  assert (Hbounds : slice_bounds 1 0 (0 + bs) = (0%nat, 1%nat)).
  { rewrite slice_bounds_forward by lia. f_equal. lia. }
  assert (Hx : shape (add_axis blocks) = [1%nat])
    by (unfold add_axis; cbn; now rewrite Hshape).
  pose proof (getitem_slice0_at (add_axis blocks) (lo := 0%Z)
                (hi := (0 + bs)%Z) Hx Hbounds) as Hchunk.
  assert (Hinfer : infer predictor
            (mk_ndarray (dtype (add_axis blocks)) [1%nat]
               (firstn (1 * size []) (skipn (0 * size [])
                  (data (add_axis blocks)))))
            = Err IndexError).
  { rewrite (Hbw 1%nat 0%Z (0 + bs)%Z _); [ | | lia | lia | exact Hchunk ].
    - unfold getitem_slice0. now rewrite Hfull, Hshape.
    - unfold shape0. now rewrite Hx. }
  assert (Hone : 0 < 1) by lia.
  pose proof (ceil_div_positive Hone Hbs) as Htarget.
  cbv beta iota delta [predict_from_array bind lift ret read_local emit
                       progbar_update].
  rewrite Hf. cbv beta iota. rewrite Hto. cbv beta iota zeta.
  rewrite shape0_add_axis, Hshape. cbn [hd].
  rewrite ceil_div_defined by lia. cbv beta iota.
  rewrite (draw_positive Htarget). cbv beta iota.
  rewrite (range_forward 1 Hbs). cbn [range_from].
  destruct (Z.ltb_spec 0 bs); [|lia]. cbn [Z.of_nat Z.ltb Z.compare Pos.of_succ_nat].
  cbn [for_each].
  cbv beta iota delta [predict_chunk call_predictor bind lift ret emit].
  rewrite Hchunk. cbv beta iota. rewrite Hinfer. reflexivity.
Qed.

(** C1, as amended.  For a normalizer and a partition that succeed, and a
    predictor that handles the blocks of the batch one by one, any two
    positive batch sizes give the same outcome: the same prediction, or
    the same error. *)
Theorem batch_size_irrelevant :
  forall inputs predictor block_shape f feats blocks full
         batch_size1 batch_size2 tr,
    f inputs = Ok feats ->
    to_blocks feats block_shape = Ok blocks ->
    shape full = shape blocks ->
    wf blocks -> wf full ->
    blockwise_on predictor (add_axis blocks) full ->
    (0 < batch_size1)%Z -> (0 < batch_size2)%Z ->
    fst (predict_from_array inputs predictor block_shape (Some f)
           batch_size1 tr)
    = fst (predict_from_array inputs predictor block_shape (Some f)
             batch_size2 tr).
Proof.
  intros inputs predictor block_shape f feats blocks full bs1 bs2 tr
    Hf Hto Hfull Hwf Hwf_full Hbw H1 H2.
  destruct (shape blocks) as [|n rest] eqn:Hshape.
  - transitivity (@Err ndarray IndexError); [|symmetry];
      apply predict_from_array_no_axis
        with (feats := feats) (blocks := blocks) (full := full);
      (assumption || congruence).
  - destruct n as [|n].
    + transitivity
        (@Err ndarray
           (OverflowError "cannot convert float infinity to integer"));
        [|symmetry];
        apply predict_from_array_no_block
          with (feats := feats) (blocks := blocks) (rest := rest);
        assumption.
    + transitivity (from_blocks (stored blocks full) (shape inputs));
        [|symmetry];
        apply predict_from_array_blockwise
          with (feats := feats) (blocks := blocks) (full := full)
               (n := Datatypes.S n) (rest := rest);
        (assumption || congruence || lia).
Qed.

End BatchSizeResult.
End Props.

(* ===================================================================== *)
(** ** Runs on explicit inputs                                            *)
(* ===================================================================== *)

Module Runs.
Import Py Np Predict Ref Props.
Local Open Scope py_scope.

(** *** Facts about the concrete collaborators *)

Lemma ref_from_blocks_shape :
  forall a s r, Ref.from_blocks a s = Ok r -> shape r = s.
Proof.
  intros a s r. unfold Ref.from_blocks.
  destruct (shape a) as [|n [|bx [|by_ [|bz [|? ?]]]]]; try discriminate;
    destruct s as [|X [|Y [|Z [|? ?]]]]; try discriminate.
  destruct (_ && _); [|discriminate].
  intros Hr. injection Hr as <-. reflexivity.
Qed.

(** The concrete partition round-trips, and it is not the identity on the
    data. *)
Example ref_round_trip :
  Ref.from_blocks blocks64 (shape volume64) = Ok volume64
  /\ data blocks64 <> data volume64
  /\ shape blocks64 = [8; 2; 2; 2]%nat.
Proof.
  split; [vm_compute; reflexivity|].
  split; [|reflexivity].
  vm_compute. intros Heq. discriminate Heq.
Qed.

Lemma removelast_snoc {A} (l : list A) (x : A) : removelast (l ++ [x]) = l.
Proof.
  induction l as [|y l IH]; [reflexivity|].
  cbn. rewrite IH. destruct l; reflexivity.
Qed.

(** [voxelwise_predictor] handles the blocks of any batch one by one. *)
Lemma voxelwise_blockwise (blocks : ndarray) :
  shape blocks <> [] ->
  blockwise_on voxelwise_predictor (add_axis blocks) (voxelwise_labels blocks).
Proof.
  intros Hshape n lo hi chunk _ _ _.
  unfold getitem_slice0, add_axis, voxelwise_labels.
  cbn [shape dtype data].
  destruct (shape blocks) as [|m rest]; cbn [app].
  - contradiction.
  - destruct (slice_bounds m lo hi) as [start len].
    intros Hchunk. injection Hchunk as <-.
    unfold infer, voxelwise_predictor. cbn.
    rewrite size_app_one. do 2 f_equal.
    destruct (rest ++ [1%nat]) eqn:E; [destruct rest; discriminate E|].
    now rewrite <- E, removelast_snoc.
Qed.

(** *** Batch size *)

(** C1, counterexample.  [chunk_size_predictor] labels a block with the
    size of the chunk it arrives in.  On the 2x2x2 volume cut into eight
    one-voxel blocks, batch sizes 1 and 4 both succeed, with different
    predictions. *)
Lemma batch_size_changes_result :
  exists r1 r4,
    fst (predict_from_array volume8 chunk_size_predictor [1; 1; 1]%nat
           (Some keep) 1 []) = Ok r1
    /\ fst (predict_from_array volume8 chunk_size_predictor [1; 1; 1]%nat
              (Some keep) 4 []) = Ok r4
    /\ r1 <> r4.
Proof.
  eexists. eexists.
  split; [vm_compute; reflexivity|].
  split; [vm_compute; reflexivity|].
  intros Heq. discriminate Heq.
Qed.

Lemma batch_size_irrelevant_witness :
  fst (predict_from_array volume64 voxelwise_predictor [2; 2; 2]%nat
         (Some keep) 1 [])
  = fst (predict_from_array volume64 voxelwise_predictor [2; 2; 2]%nat
           (Some keep) 3 []).
Proof.
  apply batch_size_irrelevant
    with (feats := volume64) (blocks := blocks64)
         (full := voxelwise_labels blocks64).
  - reflexivity.
  - vm_compute. reflexivity.
  - reflexivity.
  - vm_compute. reflexivity.
  - vm_compute. reflexivity.
  - apply voxelwise_blockwise. discriminate.
  - lia.
  - lia.
Defined.

(** *** Shape and negative batch size *)

Lemma prediction_has_input_shape_witness :
  exists out tr',
    predict_from_array volume64 voxelwise_predictor [2; 2; 2]%nat
      (Some keep) 3 [] = (Ok out, tr')
    /\ shape out = shape volume64.
Proof.
  destruct (predict_from_array volume64 voxelwise_predictor [2; 2; 2]%nat
              (Some keep) 3 []) as [[out | e] tr'] eqn:Hrun.
  - exists out, tr'. split; [reflexivity|].
    eapply prediction_has_input_shape;
      [exact ref_from_blocks_shape | exact Hrun].
  - vm_compute in Hrun. discriminate Hrun.
Defined.

(** C10, counterexample.  The 4x4x4 volume in eight blocks with
    [batch_size = -4]: the bar is created with target -2 and its first
    drawing raises; the call returns nothing. *)
Lemma negative_batch_size_does_not_return :
  predict_from_array volume64 voxelwise_predictor [2; 2; 2]%nat
    (Some keep) (-4) []
  = (Err (ValueError "cannot convert float NaN to integer"),
     [EvProgbar (-2); EvProgbarUpdate 0])
  /\ ~ (exists out tr',
          predict_from_array volume64 voxelwise_predictor [2; 2; 2]%nat
            (Some keep) (-4) [] = (Ok out, tr')).
Proof.
  assert (Hrun : predict_from_array volume64 voxelwise_predictor
                   [2; 2; 2]%nat (Some keep) (-4) []
                 = (Err (ValueError "cannot convert float NaN to integer"),
                    [EvProgbar (-2); EvProgbarUpdate 0]))
    by (vm_compute; reflexivity).
  split; [exact Hrun|].
  intros (out & tr' & Hok). rewrite Hrun in Hok. discriminate Hok.
Qed.

Lemma negative_batch_size_raises_witness :
  (-4 < 0)%Z
  /\ keep volume64 = Ok volume64
  /\ Ref.to_blocks volume64 [2; 2; 2]%nat = Ok blocks64
  /\ predict_from_array volume64 voxelwise_predictor [2; 2; 2]%nat
        (Some keep) (-4) []
      = (Err (ValueError "cannot convert float NaN to integer"),
         [EvProgbar (-2); EvProgbarUpdate 0]).
Proof.
  assert (Hneg : (-4 < 0)%Z) by lia.
  assert (Hf : keep volume64 = Ok volume64) by reflexivity.
  assert (Hto : Ref.to_blocks volume64 [2; 2; 2]%nat = Ok blocks64)
    by (vm_compute; reflexivity).
  split; [exact Hneg|]. split; [exact Hf|]. split; [exact Hto|].
  destruct (negative_batch_size_raises (C := collaborators) volume64
              voxelwise_predictor [2; 2; 2]%nat keep [] Hneg Hf Hto)
    as (_ & Hrun & _).
  exact Hrun.
Defined.

(** *** Dispatch *)

(** C3, at a failing input.  [predict] is given the identity as the
    normalizer of an array; it returns what [predict_from_array] returns
    with [normalize_zero_one], which is not what [predict_from_array]
    returns with the identity. *)
Theorem predict_array_drops_normalizer :
  exists got asked,
    fst (predict (PyArray volume8) (PyPredictor voxelwise_predictor)
           [1; 1; 1]%nat (Some keep) 4 (Some DT_X) []) = Ok (OutArray got)
    /\ fst (predict_from_array volume8 voxelwise_predictor [1; 1; 1]%nat
              (Some Ref.normalize_zero_one) 4 []) = Ok got
    /\ fst (predict_from_array volume8 voxelwise_predictor [1; 1; 1]%nat
              (Some keep) 4 []) = Ok asked
    /\ got <> asked.
Proof.
  eexists. eexists.
  split; [vm_compute; reflexivity|].
  split; [vm_compute; reflexivity|].
  split; [vm_compute; reflexivity|].
  intros Heq. discriminate Heq.
Qed.

(** C5, at a failing input.  For the [int16] image with [dtype = None],
    [predict_from_filepath] returns what [predict_from_img] returns for
    [dtype = "float32"]: a [float32] prediction, where [predict_from_img]
    with [dtype = None] returns an [int16] one. *)
Theorem predict_from_filepath_drops_dtype :
  exists got asked,
    fst (predict_from_filepath (PyStr "/data/t1.nii") voxelwise_predictor
           [1; 1; 1]%nat (Some keep) 4 None []) = Ok got
    /\ fst (predict_from_img (PyImage image8) voxelwise_predictor
              [1; 1; 1]%nat (Some keep) 4 (Some DT_X) []) = Ok got
    /\ fst (predict_from_img (PyImage image8) voxelwise_predictor
              [1; 1; 1]%nat (Some keep) 4 None []) = Ok asked
    /\ dtype (dataobj got) = "float32"%string
    /\ dtype (dataobj asked) = "int16"%string.
Proof.
  eexists. eexists.
  split; [vm_compute; reflexivity|].
  split; [vm_compute; reflexivity|].
  split; [vm_compute; reflexivity|].
  split; reflexivity.
Qed.

(** C6, counterexample.  A path string where an image is expected: the
    error is a [ValueError], not a [TypeError]. *)
Lemma non_image_raises_value_error :
  predict_from_img (PyStr "/data/t1.nii") voxelwise_predictor [1; 1; 1]%nat
    (Some keep) 4 (Some DT_X) []
  = (Err (ValueError "image is not a nibabel image type"), [])
  /\ ~ (exists msg,
          fst (predict_from_img (PyStr "/data/t1.nii") voxelwise_predictor
                 [1; 1; 1]%nat (Some keep) 4 (Some DT_X) [])
          = Err (TypeError msg)).
Proof.
  split; [reflexivity|].
  intros [msg Hmsg]. discriminate Hmsg.
Qed.

Lemma predict_from_img_rejects_non_image_witness :
  is_SpatialImage (PyStr "/data/t1.nii") = false
  /\ predict_from_img (PyStr "/data/t1.nii") voxelwise_predictor
        [1; 1; 1]%nat (Some keep) 4 (Some DT_X) []
      = (Err (ValueError "image is not a nibabel image type"), []).
Proof.
  split; [reflexivity|].
  apply (predict_from_img_rejects_non_image (C := collaborators)).
  reflexivity.
Defined.

(** C7, counterexample.  [None] as the input, with a ready predictor: the
    call raises [UnboundLocalError]; it returns nothing, null or
    otherwise. *)
Lemma unrecognized_input_raises :
  predict PyNone (PyPredictor voxelwise_predictor) [1; 1; 1]%nat
    (Some keep) 4 (Some DT_X) []
  = (Err (UnboundLocalError "out"), [])
  /\ ~ (exists out tr',
          predict PyNone (PyPredictor voxelwise_predictor) [1; 1; 1]%nat
            (Some keep) 4 (Some DT_X) [] = (Ok out, tr')).
Proof.
  split; [reflexivity|].
  intros (out & tr' & Hrun). discriminate Hrun.
Qed.

Lemma predict_unrecognized_input_witness :
  recognized PyNone = false
  /\ predict PyNone (PyPredictor voxelwise_predictor) [1; 1; 1]%nat
        (Some keep) 4 (Some DT_X) []
      = (Err (UnboundLocalError "out"), []).
Proof.
  split; [reflexivity|].
  rewrite predict_unrecognized_input by reflexivity.
  reflexivity.
Defined.

(** *** Predictor resolution and metadata *)

Lemma get_predictor_loads_from_parent_witness :
  PathLib.suffix (PathLib.Path "/models/brain/saved_model.pb")
  = ".pb"%string
  /\ _get_predictor (PyStr "/models/brain/saved_model.pb") []
      = (Ok voxelwise_predictor, [EvLoadModel "/models/brain"]).
Proof.
  split; [reflexivity|].
  rewrite get_predictor_loads_from_parent by reflexivity.
  reflexivity.
Defined.

(** C9, counterexample.  The image of a NIfTI file: the prediction is
    returned, and its header is not the header of the input: the
    description is gone. *)
Lemma header_fields_are_dropped :
  exists out tr',
    predict_from_img (PyImage image8) voxelwise_predictor [1; 1; 1]%nat
      (Some keep) 4 (Some DT_X) [] = (Ok out, tr')
    /\ header out <> header image8
    /\ fields (header image8) = [("descrip"%string, "T1w"%string)]
    /\ fields (header out) = [].
Proof.
  eexists. eexists.
  split; [vm_compute; reflexivity|].
  split; [|split; reflexivity].
  intros Heq. discriminate Heq.
Qed.

Lemma predict_from_img_rebuilds_header_witness :
  exists out tr',
    predict_from_img (PyImage image8) voxelwise_predictor [1; 1; 1]%nat
      (Some keep) 4 (Some DT_X) [] = (Ok out, tr')
    /\ affine out = the_affine
    /\ extra out = extra image8
    /\ header_class (header out) = "SpatialHeader"%string
    /\ data_dtype (header out) = "int16"%string.
Proof.
  destruct (predict_from_img (PyImage image8) voxelwise_predictor
              [1; 1; 1]%nat (Some keep) 4 (Some DT_X) [])
    as [[out | e] tr'] eqn:Hrun.
  - exists out, tr'. split; [reflexivity|].
    destruct (predict_from_img_rebuilds_header _ _ _ _ _ _ _ Hrun)
      as (Ha & He & Hc & Hd & _).
    auto.
  - vm_compute in Hrun. discriminate Hrun.
Defined.

End Runs.

(* ===================================================================== *)
(** ** Further properties of the module                                   *)
(* ===================================================================== *)

Module Further.
Import Py Np Predict Props.
Local Open Scope py_scope.

(** *** Files and predictor resolution *)

Section Resolution.
Context {Sc : Scalar} {Mt : Meta} {C : Collaborators}.

(** X1.  A path that is not an existing regular file makes
    [predict_from_filepath] raise [FileNotFoundError] naming the path,
    before the image loader is called. *)
Theorem filepath_not_found :
  forall s predictor block_shape normalizer batch_size dtype tr,
    is_file (PathLib.str (PathLib.Path s)) = false ->
    predict_from_filepath (PyStr s) predictor block_shape normalizer
      batch_size dtype tr
    = (Err (FileNotFoundError ("could not find file " ++ s)%string), tr).
Proof.
  intros s predictor block_shape normalizer batch_size dtype tr Hfile.
  unfold predict_from_filepath, bind, lift, raise. cbn.
  now rewrite Hfile.
Qed.

(** X2.  Whatever goes wrong in [_get_predictor] (a value that is no
    path, a loader that raises anything), the caller sees one error only:
    [ValueError] with the fixed message. *)
Theorem get_predictor_error_is_value_error :
  forall predictor tr e tr',
    _get_predictor predictor tr = (Err e, tr') ->
    e = ValueError load_failure.
Proof.
  intros predictor tr e tr' Hrun.
  destruct predictor; cbn in Hrun;
    try (unfold ret in Hrun; discriminate Hrun);
    try (injection Hrun as <- _; reflexivity).
  all: unfold try_except, bind, emit, lift, raise in Hrun; cbn in Hrun;
    destruct (from_saved_model _); [discriminate Hrun|];
    now injection Hrun as <- _.
Qed.

(** X3.  A predictor argument that is neither a [Predictor], nor a
    string, nor a path-like object (what [Path] accepts) is rejected with
    that [ValueError] without any attempt to load a model. *)
Theorem get_predictor_rejects_non_path :
  forall predictor tr,
    loadable predictor = false ->
    _get_predictor predictor tr = (Err (ValueError load_failure), tr).
Proof.
  intros predictor tr Hp.
  destruct predictor; try discriminate Hp; reflexivity.
Qed.

(** X4.  A path whose final component does not have the suffix [".pb"]
    is loaded as given, in the spelling of [str(Path(...))]: one load is
    attempted, from that path, and its outcome is the outcome of the
    call. *)
Theorem get_predictor_loads_as_given :
  forall s tr,
    String.eqb (PathLib.suffix (PathLib.Path s)) ".pb" = false ->
    _get_predictor (PyStr s) tr
    = (match from_saved_model (PathLib.str (PathLib.Path s)) with
       | Ok p => Ok p
       | Err _ => Err (ValueError load_failure)
       end,
       tr ++ [EvLoadModel (PathLib.str (PathLib.Path s))]).
Proof.
  intros s tr Hs. unfold _get_predictor, try_except, bind, emit, lift, raise.
  cbn. rewrite Hs. destruct (from_saved_model _); reflexivity.
Qed.

(** X5.  [predict] resolves the predictor before it looks at [inputs]:
    when the predictor cannot be resolved, the call raises the
    [ValueError] of [_get_predictor] for every input, recognised or not,
    and does nothing else. *)
Theorem predict_unresolved_predictor :
  forall inputs predictor block_shape normalizer batch_size dtype tr e tr',
    _get_predictor predictor tr = (Err e, tr') ->
    predict inputs predictor block_shape normalizer batch_size dtype tr
    = (Err (ValueError load_failure), tr').
Proof.
  intros inputs predictor block_shape normalizer batch_size dtype tr e tr'
    Hres.
  unfold predict, bind. rewrite Hres.
  destruct predictor; cbn in Hres;
    try (unfold ret in Hres; discriminate Hres);
    try (injection Hres as <- <-; reflexivity).
  all: unfold try_except, bind, emit, lift, raise in Hres; cbn in Hres;
    destruct (from_saved_model _); [discriminate Hres|];
    now injection Hres as <- <-.
Qed.

(** X6.  On a list or tuple, [predict] only builds the generator: once
    the predictor is resolved it returns at once, and no file is
    tested, loaded or predicted until the generator is iterated. *)
Theorem predict_sequence_is_lazy :
  forall l predictor block_shape normalizer batch_size dtype tr p tr',
    _get_predictor predictor tr = (Ok p, tr') ->
    predict (PySeq l) predictor block_shape normalizer batch_size dtype tr
    = (Ok (OutGenerator
             (predict_from_filepaths l p block_shape normalizer batch_size
                dtype)), tr').
Proof.
  intros l predictor block_shape normalizer batch_size dtype tr p tr' Hres.
  unfold predict, bind. now rewrite Hres.
Qed.

(** X7.  [predict] on the path of an image that exists and loads is
    [predict] on the loaded image with [dtype = "float32"], after the one
    load. *)
Theorem predict_path_as_image :
  forall s img p block_shape normalizer batch_size dtype tr,
    is_file (PathLib.str (PathLib.Path s)) = true ->
    nib_load s = Ok img ->
    predict (PyStr s) (PyPredictor p) block_shape normalizer batch_size
      dtype tr
    = predict (PyImage img) (PyPredictor p) block_shape normalizer
        batch_size (Some DT_X) (tr ++ [EvLoadImage s]).
Proof.
  intros s img p block_shape normalizer batch_size dtype tr Hfile Hload.
  unfold predict, bind. cbn [_get_predictor]. unfold ret at 1 3.
  rewrite (predict_from_filepath_delegates _ _ _ _ _ dtype tr Hfile Hload).
  reflexivity.
Qed.

End Resolution.

(** *** The generator *)

Section Generator.
Context {Sc : Scalar} {Mt : Meta} {C : Collaborators}.

Lemma generator_take_leaves :
  forall k g tr imgs g' tr',
    generator_take k g tr = (Ok (imgs, g'), tr') ->
    gen_filepaths g' = skipn k (gen_filepaths g).
Proof.
  induction k as [|k IH]; intros g tr imgs g' tr' Hrun.
  - cbn in Hrun. unfold ret in Hrun. now injection Hrun as _ <- _.
  - cbn [generator_take] in Hrun.
    apply bind_ok_inv in Hrun. destruct Hrun as (r & tr1 & Hnext & Hrun).
    unfold generator_next in Hnext.
    destruct (gen_filepaths g) as [|filepath rest] eqn:Hpaths.
    + unfold ret in Hnext. injection Hnext as <- <-.
      unfold ret in Hrun. injection Hrun as _ <- _. now rewrite Hpaths.
    + apply bind_ok_inv in Hnext.
      destruct Hnext as (img & tr2 & _ & Hnext).
      unfold ret in Hnext. injection Hnext as <- <-.
      apply bind_ok_inv in Hrun.
      destruct Hrun as ([imgs1 g1] & tr3 & Hmore & Hrun).
      unfold ret in Hrun. injection Hrun as _ <- _.
      apply IH in Hmore. exact Hmore.
Qed.

(** X8.  Iterating yields one image per path, from the front: [k] calls
    that all return give [min k (number of paths)] images and leave the
    paths after those. *)
Theorem generator_take_counts :
  forall k g tr imgs g' tr',
    generator_take k g tr = (Ok (imgs, g'), tr') ->
    List.length imgs = Nat.min k (List.length (gen_filepaths g))
    /\ gen_filepaths g' = skipn k (gen_filepaths g).
Proof.
  induction k as [|k IH]; intros g tr imgs g' tr' Hrun.
  - cbn in Hrun. unfold ret in Hrun. injection Hrun as <- <- _. now split.
  - cbn [generator_take] in Hrun.
    apply bind_ok_inv in Hrun. destruct Hrun as (r & tr1 & Hnext & Hrun).
    unfold generator_next in Hnext.
    destruct (gen_filepaths g) as [|filepath rest] eqn:Hpaths.
    + unfold ret in Hnext. injection Hnext as <- <-.
      unfold ret in Hrun. injection Hrun as <- <- _.
      rewrite Hpaths. now split.
    + apply bind_ok_inv in Hnext.
      destruct Hnext as (img & tr2 & _ & Hnext).
      unfold ret in Hnext. injection Hnext as <- <-.
      apply bind_ok_inv in Hrun.
      destruct Hrun as ([imgs1 g1] & tr3 & Hmore & Hrun).
      unfold ret in Hrun. injection Hrun as <- <- _.
      apply IH in Hmore. cbn [gen_filepaths fst snd] in *.
      destruct Hmore as [Hlen Hrest]. cbn. now rewrite Hlen, Hrest.
Qed.

(** Iteration reaches the path after [pre] exactly when the paths of
    [pre] all give an image. *)
Lemma generator_take_prefix :
  forall pre filepath post g tr,
    gen_filepaths g = pre ++ filepath :: post ->
    forall k, List.length pre < k ->
    generator_take k g tr
    = match generator_take (List.length pre) g tr with
      | (Ok (imgs, g1), tr1) =>
          match generator_take (k - List.length pre) g1 tr1 with
          | (Ok (more, g2), tr2) => (Ok (imgs ++ more, g2), tr2)
          | (Err e, tr2) => (Err e, tr2)
          end
      | (Err e, tr1) => (Err e, tr1)
      end.
Proof.
  induction pre as [|x pre IH]; intros filepath post g tr Hpaths k Hk.
  - cbn [List.length generator_take]. unfold ret at 1.
    rewrite Nat.sub_0_r.
    destruct (generator_take k g tr) as [[[more g2] | e] tr2]; reflexivity.
  - destruct k as [|k]; [cbn in Hk; lia|].
    cbn [List.length generator_take].
    unfold generator_next. rewrite Hpaths. cbn [app]. unfold bind.
    destruct (predict_from_filepath x _ _ _ _ _ tr) as [[img | e] tr1];
      [|reflexivity].
    unfold ret. cbv beta iota.
    set (g0 := mk_generator (pre ++ filepath :: post) (gen_predictor g)
                 (gen_block_shape g) (gen_normalizer g) (gen_batch_size g)
                 (gen_dtype g)).
    rewrite (IH filepath post g0 tr1 eq_refl k) by (cbn in Hk; lia).
    destruct (generator_take (List.length pre) g0 tr1)
      as [[[imgs g1] | e] tr2]; [|reflexivity].
    replace (S k - S (List.length pre)) with (k - List.length pre) by lia.
    cbn [fst snd].
    destruct (generator_take (k - List.length pre) g1 tr2)
      as [[[more g2] | e] tr3]; reflexivity.
Qed.

(** X9.  The first path that is not an existing file ends the iteration:
    the call of [next] that reaches it raises [FileNotFoundError], after
    the paths before it have been handled and without touching the paths
    after it, however many more images are asked for. *)
Theorem generator_stops_at_missing_file :
  forall pre s post g tr k,
    gen_filepaths g = pre ++ PyStr s :: post ->
    is_file (PathLib.str (PathLib.Path s)) = false ->
    List.length pre < k ->
    generator_take k g tr
    = match generator_take (List.length pre) g tr with
      | (Ok _, tr1) =>
          (Err (FileNotFoundError ("could not find file " ++ s)%string), tr1)
      | (Err e, tr1) => (Err e, tr1)
      end.
Proof.
  intros pre s post g tr k Hpaths Hfile Hk.
  rewrite (generator_take_prefix pre (PyStr s) post g tr Hpaths Hk).
  destruct (generator_take (List.length pre) g tr)
    as [[[imgs g1] | e] tr1] eqn:Hpre; [|reflexivity].
  apply generator_take_leaves in Hpre. rename Hpre into Hrest.
  rewrite Hpaths, skipn_app, skipn_all, Nat.sub_diag in Hrest.
  cbn in Hrest.
  destruct (k - List.length pre) as [|k'] eqn:Hk'; [lia|].
  cbn [generator_take]. unfold generator_next. rewrite Hrest.
  unfold predict_from_filepath, bind, lift, raise. cbn.
  now rewrite Hfile.
Qed.

End Generator.
(** *** What the batching loop logs *)

Section LoopEvents.
Context {Sc : Scalar} {Mt : Meta} {C : Collaborators}.

Lemma range_from_bounds (stop step : Z) :
  (0 < step)%Z ->
  forall fuel j, Forall (fun i => (j <= i < stop)%Z)
                   (range_from fuel j stop step).
Proof.
  intros Hstep. induction fuel as [|fuel IH]; intros j; cbn; [constructor|].
  destruct (Z.ltb_spec 0 step); [|lia].
  destruct (Z.ltb_spec j stop); [|constructor].
  constructor; [lia|].
  eapply Forall_impl; [|apply IH]. cbn. intros i Hi. lia.
Qed.

Lemma range_bounds (n : nat) (step : Z) (js : list Z) :
  range 0 (Z.of_nat n) step = Ok js ->
  Forall (fun i => (0 <= i < Z.of_nat n)%Z) js.
Proof.
  unfold range. destruct (Z.eqb_spec step 0); [discriminate|].
  intros Hjs. injection Hjs as <-.
  destruct (Z.ltb_spec 0 step) as [Hpos | Hneg].
  - now apply range_from_bounds.
  - destruct (Z.to_nat (Z.abs (Z.of_nat n - 0))); cbn; [constructor|].
    destruct (Z.ltb_spec 0 step); [lia|].
    destruct (Z.ltb_spec (Z.of_nat n) 0); [lia | constructor].
Qed.

Lemma shape_add_axis (a : ndarray) :
  exists rest, shape (add_axis a) = hd 1%nat (shape a) :: rest.
Proof.
  unfold add_axis. cbn. destruct (shape a) as [|m r]; cbn; eauto.
Qed.

Lemma predict_chunk_appends (P : event -> Prop) predictor features
    batch_size progbar j outputs tr :
  (forall chunk,
      getitem_slice0 features j (j + batch_size) = Ok chunk ->
      P (EvPredict chunk)) ->
  P (EvProgbarAdd 1) ->
  exists evs,
    snd (predict_chunk predictor features batch_size progbar j outputs tr)
    = tr ++ evs
    /\ Forall P evs.
Proof.
  intros Hchunk Hadd.
  unfold predict_chunk, call_predictor, progbar_add, bind, lift, emit, ret.
  destruct (getitem_slice0 features j (j + batch_size)) as [chunk | e].
  - specialize (Hchunk chunk eq_refl). cbn.
    destruct (infer predictor chunk) as [y | e]; cbn.
    + destruct (setitem_slice0 outputs j (j + batch_size) y); cbn.
      * exists [EvPredict chunk; EvProgbarAdd 1].
        rewrite <- app_assoc.
        destruct (Keras.draw progbar); (split; [reflexivity | auto]).
      * exists [EvPredict chunk]. split; [reflexivity | auto].
    + exists [EvPredict chunk]. split; [reflexivity | auto].
  - cbn. exists []. now rewrite app_nil_r.
Qed.

Lemma for_each_appends (P : event -> Prop) (St : Type) (js : list Z)
    (body : Z -> St -> M event St) :
  (forall j, In j js ->
     forall s tr, exists evs, snd (body j s tr) = tr ++ evs /\ Forall P evs) ->
  forall s tr,
    exists evs, snd (for_each js body s tr) = tr ++ evs /\ Forall P evs.
Proof.
  induction js as [|j js IH]; intros Hbody s tr.
  - cbn. exists []. now rewrite app_nil_r.
  - cbn [for_each]. unfold bind.
    destruct (Hbody j (or_introl eq_refl) s tr) as (evs1 & Hsnd & Hevs1).
    destruct (body j s tr) as [[s' | e] tr1]; cbn [snd] in Hsnd; subst tr1.
    + destruct (IH (fun i Hi => Hbody i (or_intror Hi)) s' (tr ++ evs1))
        as (evs2 & Hsnd2 & Hevs2).
      exists (evs1 ++ evs2). rewrite Hsnd2, app_assoc.
      split; [reflexivity | now apply Forall_app].
    + exists evs1. now split.
Qed.

(** Every event of a call of [predict_from_array] satisfies [P] as soon
    as the events of the progress bar do, and the calls of the predictor
    on the slices of the batch that the loop can take. *)
Lemma predict_from_array_appends (P : event -> Prop) inputs predictor
    block_shape normalizer batch_size tr :
  (forall target, P (EvProgbar target)) ->
  P (EvProgbarUpdate 0) ->
  P (EvProgbarAdd 1) ->
  (forall blocks n j chunk,
      shape0 (add_axis blocks) = Ok n ->
      (0 <= j < Z.of_nat n)%Z ->
      getitem_slice0 (add_axis blocks) j (j + batch_size) = Ok chunk ->
      P (EvPredict chunk)) ->
  exists evs,
    snd (predict_from_array inputs predictor block_shape normalizer
           batch_size tr) = tr ++ evs
    /\ Forall P evs.
Proof.
  intros Hbar Hupdate Hadd Hchunk.
  assert (Hnone : exists evs : list event, tr = tr ++ evs /\ Forall P evs)
    by (exists []; now rewrite app_nil_r).
  cbv beta iota delta [predict_from_array bind lift ret read_local emit raise
                       progbar_update].
  destruct normalizer as [f|]; [|exact Hnone].
  destruct (f inputs) as [feats | e]; [|exact Hnone].
  destruct (to_blocks feats block_shape) as [blocks | e]; [|exact Hnone].
  cbv beta iota zeta.
  rewrite shape0_add_axis.
  destruct (ceil_div (Z.of_nat (hd 1%nat (shape blocks))) batch_size)
    as [target | e]; [|exact Hnone].
  destruct (Keras.draw target) as [[] | e].
  2: { cbn [snd]. exists [EvProgbar target; EvProgbarUpdate 0].
       rewrite <- app_assoc. split; [reflexivity | auto]. }
  destruct (range 0 (Z.of_nat (hd 1%nat (shape blocks))) batch_size)
    as [js | e] eqn:Hjs.
  - apply range_bounds in Hjs.
    assert (Hbody : forall j, In j js ->
              forall s0 tr0, exists evs,
                snd (predict_chunk predictor (add_axis blocks) batch_size
                       target j s0 tr0) = tr0 ++ evs
                /\ Forall P evs).
    { intros j Hj s0 tr0. apply predict_chunk_appends; [|exact Hadd].
      intros chunk Hc. rewrite Forall_forall in Hjs.
      eapply Hchunk; [apply shape0_add_axis | apply Hjs, Hj | exact Hc]. }
    destruct (@for_each_appends P ndarray js _ Hbody (zeros_like blocks)
                ((tr ++ [EvProgbar target]) ++ [EvProgbarUpdate 0]))
      as (evs & Hsnd & Hevs).
    destruct (for_each js _ (zeros_like blocks) _) as [[out | e] tr1];
      cbn [snd] in Hsnd; subst tr1; cbn [snd];
      (exists (EvProgbar target :: EvProgbarUpdate 0 :: evs);
       rewrite <- !app_assoc; split; [reflexivity | auto]).
  - cbn [snd]. exists [EvProgbar target; EvProgbarUpdate 0].
    rewrite <- app_assoc. split; [reflexivity | auto].
Qed.

(** X10.  For a positive batch size the predictor only ever receives
    chunks of at least one and at most [batch_size] blocks, whatever the
    volume, the predictor and the outcome of the call. *)
Theorem chunks_within_batch_size :
  forall inputs predictor block_shape normalizer batch_size tr,
    (0 < batch_size)%Z ->
    exists evs,
      snd (predict_from_array inputs predictor block_shape normalizer
             batch_size tr) = tr ++ evs
      /\ Forall (fun ev => chunk_within batch_size ev = true) evs.
Proof.
  intros inputs predictor block_shape normalizer batch_size tr Hbs.
  apply predict_from_array_appends; try reflexivity.
  intros blocks n j chunk Hn Hj Hchunk.
  destruct (shape_add_axis blocks) as [rest Hshape].
  rewrite shape0_add_axis in Hn. injection Hn as <-.
  rewrite (getitem_slice0_at _ Hshape (slice_bounds_forward _ Hj Hbs))
    in Hchunk.
  injection Hchunk as <-. unfold chunk_within. cbn [shape].
  apply andb_true_intro. split; [apply Nat.leb_le | apply Z.leb_le]; lia.
Qed.

(** X11.  When an image is accepted, its cache is released first and once,
    whether or not the prediction then succeeds; all that follows are
    events of the batching loop, which loads no model and no image. *)
Theorem predict_from_img_releases_cache_first :
  forall img predictor block_shape normalizer batch_size dtype tr,
    exists evs,
      snd (predict_from_img (PyImage img) predictor block_shape normalizer
             batch_size dtype tr) = tr ++ EvUncache :: evs
      /\ Forall (fun ev => is_loop_event ev = true) evs.
Proof.
  intros img predictor block_shape normalizer batch_size dtype tr.
  unfold predict_from_img, bind, emit. cbn.
  destruct (@predict_from_array_appends
              (fun ev => is_loop_event ev = true)
              (match dtype with
               | Some d => astype (dataobj img) d
               | None => dataobj img
               end)
              predictor block_shape normalizer batch_size
              (tr ++ [EvUncache]))
    as (evs & Hsnd & Hevs); try reflexivity.
  exists evs. split; [|exact Hevs].
  destruct (predict_from_array _ predictor block_shape normalizer
              batch_size (tr ++ [EvUncache])) as [[y | e] tr1];
    cbn [snd] in *; subst tr1; now rewrite <- app_assoc.
Qed.

End LoopEvents.
(** *** Outcomes of the batching loop *)

Section LoopOutcomes.
Context {Sc : Scalar} {Mt : Meta} {C : Collaborators}.

(** X12.  A batch size of zero is not rejected up front: once the volume
    is normalized and partitioned, the division [n_blocks / batch_size]
    raises [ZeroDivisionError], before the progress bar exists and before
    any call of the predictor. *)
Theorem zero_batch_size_divides_by_zero :
  forall inputs predictor block_shape f feats blocks tr,
    f inputs = Ok feats ->
    to_blocks feats block_shape = Ok blocks ->
    predict_from_array inputs predictor block_shape (Some f) 0 tr
    = (Err ZeroDivisionError, tr).
Proof.
  intros inputs predictor block_shape f feats blocks tr Hf Hto.
  cbv beta iota delta [predict_from_array bind lift ret read_local emit].
  rewrite Hf. cbv beta iota. rewrite Hto. cbv beta iota zeta.
  rewrite shape0_add_axis. reflexivity.
Qed.

Lemma count_events_app (p : event -> bool) (a b : list event) :
  count_events p (a ++ b) = count_events p a + count_events p b.
Proof. unfold count_events. now rewrite filter_app, length_app. Qed.

Lemma predict_chunk_ok_events predictor features batch_size progbar j s tr
    s' tr' :
  predict_chunk predictor features batch_size progbar j s tr = (Ok s', tr') ->
  exists chunk, tr' = tr ++ [EvPredict chunk; EvProgbarAdd 1].
Proof.
  unfold predict_chunk, call_predictor, progbar_add, bind, lift, emit, ret.
  destruct (getitem_slice0 features j (j + batch_size)) as [chunk | e];
    [|discriminate].
  cbn. destruct (infer predictor chunk) as [y | e]; [|discriminate].
  cbn. destruct (setitem_slice0 s j (j + batch_size) y); [|discriminate].
  cbn. destruct (Keras.draw progbar); [|discriminate].
  intros Hrun. injection Hrun as _ <-.
  exists chunk. now rewrite <- app_assoc.
Qed.

Lemma for_each_ok_events predictor features batch_size progbar
    (js : list Z) :
  forall s tr s' tr',
    for_each js (predict_chunk predictor features batch_size progbar) s tr
    = (Ok s', tr') ->
    exists evs,
      tr' = tr ++ evs
      /\ count_events is_EvPredict evs = List.length js
      /\ count_events is_EvProgbarAdd evs = List.length js.
Proof.
  induction js as [|j js IH]; intros s tr s' tr' Hrun.
  - cbn in Hrun. unfold ret in Hrun. injection Hrun as _ <-.
    exists []. now rewrite app_nil_r.
  - cbn [for_each] in Hrun. apply bind_ok_inv in Hrun.
    destruct Hrun as (s1 & tr1 & Hstep & Hrest).
    apply predict_chunk_ok_events in Hstep. destruct Hstep as [chunk ->].
    apply IH in Hrest. destruct Hrest as (evs & -> & Hp & Ha).
    exists ([EvPredict chunk; EvProgbarAdd 1] ++ evs).
    rewrite app_assoc, !count_events_app, Hp, Ha. now split.
Qed.

(** [range(0, stop, step)] has [ceil(stop / step)] values. *)
Lemma length_range_from (stop step : Z) :
  (0 < step)%Z ->
  forall fuel j,
    (stop - j <= Z.of_nat fuel)%Z ->
    List.length (range_from fuel j stop step)
    = Z.to_nat (- ((j - stop) / step)).
Proof.
  intros Hstep. induction fuel as [|fuel IH]; intros j Hfuel.
  - cbn. assert (0 <= (j - stop) / step)%Z by (apply Z.div_pos; lia). lia.
  - cbn [range_from]. destruct (Z.ltb_spec 0 step); [|lia].
    destruct (Z.ltb_spec j stop).
    + cbn [List.length]. rewrite IH by lia.
      replace (j + step - stop)%Z with (j - stop + 1 * step)%Z by lia.
      rewrite Z.div_add by lia.
      assert ((j - stop) / step < 0)%Z
        by (apply Z.div_lt_upper_bound; lia).
      lia.
    + cbn. assert (0 <= (j - stop) / step)%Z by (apply Z.div_pos; lia). lia.
Qed.

(** X13.  A call with a positive batch size that returns has invoked the
    predictor once per chunk and advanced the progress bar once per
    chunk, and the number of chunks is the target the bar was created
    with: the bar ends exactly full. *)
Theorem progress_reaches_target :
  forall inputs predictor block_shape normalizer batch_size tr out tr',
    (0 < batch_size)%Z ->
    predict_from_array inputs predictor block_shape normalizer batch_size tr
    = (Ok out, tr') ->
    exists target evs,
      tr' = tr ++ EvProgbar target :: EvProgbarUpdate 0 :: evs
      /\ count_events is_EvPredict evs = Z.to_nat target
      /\ count_events is_EvProgbarAdd evs = Z.to_nat target.
Proof.
  intros inputs predictor block_shape normalizer batch_size tr out tr'
    Hbs Hrun.
  unfold predict_from_array in Hrun.
  apply bind_ok_inv in Hrun. destruct Hrun as (o & tr1 & Hnorm & Hrun).
  assert (tr1 = tr) as ->.
  { destruct normalizer as [f|]; [|now injection Hnorm as _ <-].
    apply bind_ok_inv in Hnorm. destruct Hnorm as (v & tr2 & Hv & Hnorm).
    unfold lift in Hv. unfold ret in Hnorm.
    injection Hv as _ <-. now injection Hnorm as _ <-. }
  apply bind_ok_inv in Hrun. destruct Hrun as (feats & tr1 & Hread & Hrun).
  assert (tr1 = tr) as ->
    by (destruct o; cbn in Hread; [now injection Hread as _ <- | discriminate]).
  apply bind_ok_inv in Hrun. destruct Hrun as (blocks & tr1 & Hto & Hrun).
  unfold lift in Hto. injection Hto as _ <-.
  cbv zeta in Hrun.
  apply bind_ok_inv in Hrun. destruct Hrun as (n & tr1 & Hn & Hrun).
  unfold lift in Hn. injection Hn as Hn <-.
  apply bind_ok_inv in Hrun. destruct Hrun as (target & tr1 & Ht & Hrun).
  unfold lift in Ht. injection Ht as Ht <-.
  rewrite ceil_div_defined in Ht by lia. injection Ht as <-.
  apply bind_ok_inv in Hrun. destruct Hrun as ([] & tr1 & Hev & Hrun).
  unfold emit in Hev. injection Hev as <-.
  apply bind_ok_inv in Hrun. destruct Hrun as ([] & tr1 & Hev & Hrun).
  unfold progbar_update in Hev. apply bind_ok_inv in Hev.
  destruct Hev as ([] & tr2 & Hev & Hdraw).
  unfold emit in Hev. injection Hev as <-.
  unfold lift in Hdraw. injection Hdraw as _ <-.
  apply bind_ok_inv in Hrun. destruct Hrun as (js & tr1 & Hjs & Hrun).
  unfold lift in Hjs. injection Hjs as Hjs <-.
  rewrite range_forward in Hjs by exact Hbs. injection Hjs as <-.
  apply bind_ok_inv in Hrun. destruct Hrun as (outputs & tr1 & Hloop & Hrun).
  unfold lift in Hrun. injection Hrun as _ <-.
  apply for_each_ok_events in Hloop. destruct Hloop as (evs & -> & Hp & Ha).
  rewrite length_range_from in Hp, Ha by lia.
  exists (- (- Z.of_nat n / batch_size))%Z, evs.
  rewrite <- !app_assoc. cbn [app].
  replace (- (- Z.of_nat n / batch_size))%Z
    with (- ((0 - Z.of_nat n) / batch_size))%Z by (do 2 f_equal; lia).
  auto.
Qed.

Lemma range_from_done (fuel : nat) (j stop step : Z) :
  (0 < step)%Z -> (stop <= j)%Z -> range_from fuel j stop step = [].
Proof.
  intros Hstep Hj. destruct fuel; cbn; [reflexivity|].
  destruct (Z.ltb_spec 0 step); [|lia].
  now destruct (Z.ltb_spec j stop); [lia|].
Qed.

Lemma range_first (n : nat) (step : Z) :
  (0 < step)%Z -> 0 < n ->
  range 0 (Z.of_nat n) step
  = Ok (0%Z :: range_from (n - 1) step (Z.of_nat n) step).
Proof.
  intros Hstep Hn. rewrite range_forward by exact Hstep.
  destruct n as [|n]; [lia|]. cbn [range_from].
  destruct (Z.ltb_spec 0 step); [|lia].
  destruct (Z.ltb_spec 0 (Z.of_nat (S n))); [|lia].
  now rewrite Nat.sub_succ, Nat.sub_0_r.
Qed.

(** X14.  When the batch size is at least the number of blocks, the loop
    makes one pass: the predictor is called once, on the whole batch,
    and the call returns what [from_blocks] makes of its labels, converted
    to the dtype of the batch. *)
Theorem one_chunk_when_batch_size_covers :
  forall inputs predictor block_shape f feats blocks n rest labels
         batch_size tr,
    f inputs = Ok feats ->
    to_blocks feats block_shape = Ok blocks ->
    shape blocks = n :: rest ->
    wf blocks ->
    0 < n -> (Z.of_nat n <= batch_size)%Z ->
    infer predictor (add_axis blocks) = Ok labels ->
    shape labels = shape blocks ->
    predict_from_array inputs predictor block_shape (Some f) batch_size tr
    = (from_blocks (stored blocks labels) (shape inputs),
       tr ++ [EvProgbar 1; EvProgbarUpdate 0;
              EvPredict (add_axis blocks); EvProgbarAdd 1]).
Proof.
  intros inputs predictor block_shape f feats blocks n rest labels bs tr
    Hf Hto Hshape Hwf Hn Hbs Hinfer Hlabels.
  assert (Hpos : (0 < bs)%Z) by lia.
  assert (Hj : (0 <= 0 < Z.of_nat n)%Z) by lia.
  pose proof (slice_bounds_forward n Hj Hpos) as Hbounds.
  replace (Z.to_nat (Z.min (0 + bs) (Z.of_nat n)) - Z.to_nat 0) with n
    in Hbounds by lia.
  change (Z.to_nat 0) with 0 in Hbounds.
  assert (Hlen : List.length (data blocks) = n * size rest)
    by (unfold wf in Hwf; now rewrite Hwf, Hshape).
  assert (Hchunk : getitem_slice0 (add_axis blocks) 0 (0 + bs)
                   = Ok (add_axis blocks)).
  { assert (Hx : shape (add_axis blocks) = n :: rest ++ [1%nat])
      by (unfold add_axis; cbn; now rewrite Hshape).
    rewrite (getitem_slice0_at (add_axis blocks) Hx Hbounds).
    rewrite size_app_one. cbn [Nat.mul skipn].
    rewrite firstn_all2 by (cbn [add_axis data]; lia).
    unfold add_axis. cbn [dtype data]. now rewrite Hshape. }
  assert (Hset : setitem_slice0 (zeros_like blocks) 0 (0 + bs) labels
                 = Ok (stored blocks labels)).
  { assert (Hz : shape (zeros_like blocks) = n :: rest) by exact Hshape.
    assert (Hl : shape labels = n :: rest) by congruence.
    rewrite (setitem_slice0_at (zeros_like blocks) labels Hz Hbounds Hl).
    unfold stored, zeros_like. cbn [dtype shape data Nat.mul Nat.add firstn app].
    rewrite skipn_all2 by (rewrite repeat_length; lia).
    now rewrite app_nil_r. }
  assert (Hceil : ceil_div (Z.of_nat n) bs = Ok 1%Z).
  { rewrite ceil_div_defined by lia.
    assert (Hq : (- Z.of_nat n / bs = -1)%Z)
      by (symmetry;
          apply Z.div_unique with (r := (bs - Z.of_nat n)%Z); lia).
    now rewrite Hq. }
  assert (Hdraw : Keras.draw 1 = Ok tt) by reflexivity.
  cbv beta iota delta [predict_from_array bind lift ret read_local emit
                       progbar_update].
  rewrite Hf. cbv beta iota. rewrite Hto. cbv beta iota zeta.
  rewrite shape0_add_axis, Hshape. cbn [hd].
  rewrite Hceil. cbv beta iota. rewrite Hdraw. cbv beta iota.
  rewrite (range_first Hpos Hn). rewrite range_from_done by lia.
  cbn [for_each].
  cbv beta iota delta [predict_chunk call_predictor progbar_add bind lift ret
                       emit].
  rewrite Hchunk. cbv beta iota. rewrite Hinfer. cbv beta iota.
  rewrite Hset. cbv beta iota. rewrite Hdraw. cbv beta iota.
  now rewrite <- !app_assoc.
Qed.

(** A failure of the predictor on the first chunk ends the call. *)
Lemma first_chunk_error :
  forall inputs predictor block_shape f feats blocks chunk e batch_size tr,
    f inputs = Ok feats ->
    to_blocks feats block_shape = Ok blocks ->
    0 < hd 1 (shape blocks) -> (0 < batch_size)%Z ->
    getitem_slice0 (add_axis blocks) 0 batch_size = Ok chunk ->
    infer predictor chunk = Err e ->
    predict_from_array inputs predictor block_shape (Some f) batch_size tr
    = (Err e,
       tr ++ [EvProgbar (- (- Z.of_nat (hd 1 (shape blocks)) / batch_size));
              EvProgbarUpdate 0; EvPredict chunk]).
Proof.
  intros inputs predictor block_shape f feats blocks chunk e bs tr
    Hf Hto Hn Hbs Hchunk Hinfer.
  pose proof (ceil_div_positive Hn Hbs) as Htarget.
  cbv beta iota delta [predict_from_array bind lift ret read_local emit
                       progbar_update].
  rewrite Hf. cbv beta iota. rewrite Hto. cbv beta iota zeta.
  rewrite shape0_add_axis.
  rewrite ceil_div_defined by lia. cbv beta iota.
  rewrite (draw_positive Htarget). cbv beta iota.
  rewrite (range_first Hbs Hn). cbn [for_each].
  cbv beta iota delta [predict_chunk call_predictor bind lift ret emit].
  change (0 + bs)%Z with bs.
  rewrite Hchunk. cbv beta iota. rewrite Hinfer.
  now rewrite <- !app_assoc.
Qed.

(** X15.  An error raised by the predictor on the first chunk reaches the
    caller unchanged; the predictor is not called again, the progress bar
    does not advance, and no partial prediction is returned. *)
Theorem predictor_error_propagates :
  forall inputs predictor block_shape f feats blocks chunk e batch_size tr,
    f inputs = Ok feats ->
    to_blocks feats block_shape = Ok blocks ->
    0 < hd 1 (shape blocks) -> (0 < batch_size)%Z ->
    getitem_slice0 (add_axis blocks) 0 batch_size = Ok chunk ->
    predictor [("volume"%string, chunk)] = Err e ->
    predict_from_array inputs predictor block_shape (Some f) batch_size tr
    = (Err e,
       tr ++ [EvProgbar (- (- Z.of_nat (hd 1 (shape blocks)) / batch_size));
              EvProgbarUpdate 0; EvPredict chunk]).
Proof.
  intros inputs predictor block_shape f feats blocks chunk e bs tr
    Hf Hto Hn Hbs Hchunk Hcall.
  eapply first_chunk_error; eauto.
  unfold infer. now rewrite Hcall.
Qed.

Lemma getitem_missing {A} (d : list (string * A)) (key : string) :
  forallb (fun kv => negb (String.eqb (fst kv) key)) d = true ->
  getitem d key = Err (KeyError key).
Proof.
  induction d as [|[k v] d IH]; cbn; [reflexivity|].
  intros Hd. apply andb_prop in Hd. destruct Hd as [Hk Hd].
  destruct (String.eqb k key); [discriminate Hk | now apply IH].
Qed.

(** X16.  A predictor whose output has no ["class_ids"] entry makes the
    call raise [KeyError] for that key, after one call of the
    predictor. *)
Theorem missing_class_ids_is_key_error :
  forall inputs predictor block_shape f feats blocks chunk out batch_size tr,
    f inputs = Ok feats ->
    to_blocks feats block_shape = Ok blocks ->
    0 < hd 1 (shape blocks) -> (0 < batch_size)%Z ->
    getitem_slice0 (add_axis blocks) 0 batch_size = Ok chunk ->
    predictor [("volume"%string, chunk)] = Ok out ->
    forallb (fun kv => negb (String.eqb (fst kv) _INFERENCE_CLASSES_KEY)) out
    = true ->
    predict_from_array inputs predictor block_shape (Some f) batch_size tr
    = (Err (KeyError "class_ids"),
       tr ++ [EvProgbar (- (- Z.of_nat (hd 1 (shape blocks)) / batch_size));
              EvProgbarUpdate 0; EvPredict chunk]).
Proof.
  intros inputs predictor block_shape f feats blocks chunk out bs tr
    Hf Hto Hn Hbs Hchunk Hcall Hkeys.
  eapply first_chunk_error; eauto.
  unfold infer. rewrite Hcall. now apply getitem_missing.
Qed.

(** X17.  With a predictor that handles the blocks one by one and a
    batch of at least one block, a call
    with a positive batch size returns what [from_blocks] makes of the
    labels of all the blocks, each label converted to the dtype of the
    normalized volume: the dtype of the labels themselves is lost. *)
Theorem prediction_is_reassembled_labels :
  forall inputs predictor block_shape f feats blocks full batch_size tr,
    f inputs = Ok feats ->
    to_blocks feats block_shape = Ok blocks ->
    shape blocks <> [] ->
    0 < hd 1 (shape blocks) ->
    shape full = shape blocks ->
    wf blocks -> wf full ->
    blockwise_on predictor (add_axis blocks) full ->
    (0 < batch_size)%Z ->
    fst (predict_from_array inputs predictor block_shape (Some f)
           batch_size tr)
    = from_blocks
        (mk_ndarray (dtype blocks) (shape blocks)
           (map (cast (dtype full) (dtype blocks)) (data full)))
        (shape inputs).
Proof.
  intros inputs predictor block_shape f feats blocks full bs tr
    Hf Hto Hne Hn Hfull Hwf Hwf_full Hbw Hbs.
  destruct (shape blocks) as [|n rest] eqn:Hshape; [contradiction|].
  cbn [hd] in Hn. rewrite <- Hshape.
  apply predict_from_array_blockwise
    with (feats := feats) (n := n) (rest := rest);
    (assumption || congruence).
Qed.

End LoopOutcomes.
End Further.

(* ===================================================================== *)
(** ** Further runs on explicit inputs                                    *)
(* ===================================================================== *)

Module FurtherRuns.
Import Py Np Predict Ref Props Runs Further.
Local Open Scope py_scope.

Lemma filepath_not_found_witness :
  is_file (PathLib.str (PathLib.Path "/data/missing.nii")) = false
  /\ predict_from_filepath missing voxelwise_predictor [1; 1; 1]%nat
        (Some keep) 4 (Some DT_X) []
      = (Err (FileNotFoundError "could not find file /data/missing.nii"), []).
Proof.
  split; [reflexivity|].
  apply (filepath_not_found (C := collaborators)). reflexivity.
Defined.

Lemma get_predictor_error_is_value_error_witness :
  exists e tr',
    _get_predictor (PyStr "/models/none") [] = (Err e, tr')
    /\ e = ValueError load_failure.
Proof.
  destruct (_get_predictor (PyStr "/models/none") []) as [[p | e] tr']
    eqn:Hrun.
  - vm_compute in Hrun. discriminate Hrun.
  - exists e, tr'. split; [reflexivity|].
    eapply get_predictor_error_is_value_error. exact Hrun.
Defined.

Lemma get_predictor_rejects_non_path_witness :
  loadable (PyInt 3) = false
  /\ _get_predictor (PyInt 3) [] = (Err (ValueError load_failure), []).
Proof.
  split; [reflexivity|].
  apply (get_predictor_rejects_non_path (C := collaborators)). reflexivity.
Defined.

Lemma get_predictor_loads_as_given_witness :
  String.eqb (PathLib.suffix (PathLib.Path "/models//brain/")) ".pb" = false
  /\ _get_predictor (PyStr "/models//brain/") []
      = (Ok voxelwise_predictor, [EvLoadModel "/models/brain"]).
Proof.
  split; [reflexivity|].
  rewrite get_predictor_loads_as_given by reflexivity.
  reflexivity.
Defined.

Lemma predict_unresolved_predictor_witness :
  predict (PyArray volume8) (PyStr "/models/none") [1; 1; 1]%nat
    (Some keep) 4 (Some DT_X) []
  = (Err (ValueError load_failure), [EvLoadModel "/models/none"]).
Proof.
  eapply predict_unresolved_predictor. vm_compute. reflexivity.
Defined.

Lemma predict_sequence_is_lazy_witness :
  predict (PySeq [missing; t1]) (PyPredictor voxelwise_predictor)
    [1; 1; 1]%nat (Some keep) 4 (Some DT_X) []
  = (Ok (OutGenerator
           (predict_from_filepaths [missing; t1] voxelwise_predictor
              [1; 1; 1]%nat (Some keep) 4 (Some DT_X))), []).
Proof.
  apply predict_sequence_is_lazy. reflexivity.
Defined.

Lemma predict_path_as_image_witness :
  predict t1 (PyPredictor voxelwise_predictor) [1; 1; 1]%nat (Some keep) 4
    None []
  = predict (PyImage image8) (PyPredictor voxelwise_predictor) [1; 1; 1]%nat
      (Some keep) 4 (Some DT_X) [EvLoadImage "/data/t1.nii"].
Proof.
  apply (predict_path_as_image (C := collaborators)); reflexivity.
Defined.

Lemma generator_take_counts_witness :
  exists imgs g' tr',
    generator_take 3 two_files [] = (Ok (imgs, g'), tr')
    /\ List.length imgs = 2%nat
    /\ gen_filepaths g' = [].
Proof.
  destruct (generator_take 3 two_files []) as [[[imgs g'] | e] tr'] eqn:Hrun.
  - exists imgs, g', tr'. split; [reflexivity|].
    exact (generator_take_counts _ _ _ Hrun).
  - vm_compute in Hrun. discriminate Hrun.
Defined.

Lemma generator_stops_at_missing_file_witness :
  exists tr1,
    generator_take 3 second_missing []
    = (Err (FileNotFoundError "could not find file /data/missing.nii"), tr1)
    /\ count_events is_EvPredict tr1 = 2%nat
    /\ tr1 = snd (generator_take 1 second_missing []).
Proof.
  assert (Hpaths : gen_filepaths second_missing
                   = [t1] ++ PyStr "/data/missing.nii" :: [t1])
    by reflexivity.
  assert (Hfile : is_file (PathLib.str (PathLib.Path "/data/missing.nii"))
                  = false) by reflexivity.
  assert (Hk : List.length [t1] < 3) by (cbn; lia).
  rewrite (@generator_stops_at_missing_file _ _ _ [t1] "/data/missing.nii"
             [t1] second_missing [] 3 Hpaths Hfile Hk).
  destruct (generator_take (List.length [t1]) second_missing [])
    as [[r | e] tr1] eqn:Hrun.
  - exists tr1. split; [reflexivity|].
    vm_compute in Hrun. injection Hrun as _ <-. split; reflexivity.
  - vm_compute in Hrun. discriminate Hrun.
Defined.

Lemma chunks_within_batch_size_witness :
  (0 < 3)%Z
  /\ exists evs,
       snd (predict_from_array volume64 voxelwise_predictor [2; 2; 2]%nat
              (Some keep) 3 []) = [] ++ evs
       /\ count_events is_EvPredict evs = 3%nat
       /\ Forall (fun ev => chunk_within 3 ev = true) evs.
Proof.
  split; [lia|].
  destruct (chunks_within_batch_size (C := collaborators) volume64
              voxelwise_predictor [2; 2; 2]%nat (Some keep) []
              (batch_size := 3%Z)) as (evs & Hsnd & Hevs); [lia|].
  exists evs. split; [exact Hsnd|]. split; [|exact Hevs].
  cbn [app] in Hsnd. rewrite <- Hsnd. vm_compute. reflexivity.
Defined.

Lemma zero_batch_size_divides_by_zero_witness :
  keep volume64 = Ok volume64
  /\ Ref.to_blocks volume64 [2; 2; 2]%nat = Ok blocks64
  /\ predict_from_array volume64 voxelwise_predictor [2; 2; 2]%nat
        (Some keep) 0 [] = (Err ZeroDivisionError, []).
Proof.
  assert (Hto : Ref.to_blocks volume64 [2; 2; 2]%nat = Ok blocks64)
    by (vm_compute; reflexivity).
  split; [reflexivity|]. split; [exact Hto|].
  exact (zero_batch_size_divides_by_zero (C := collaborators) volume64
           voxelwise_predictor [2; 2; 2]%nat keep [] eq_refl Hto).
Defined.

Lemma progress_reaches_target_witness :
  exists out target evs,
    predict_from_array volume64 voxelwise_predictor [2; 2; 2]%nat
      (Some keep) 3 []
    = (Ok out, [] ++ EvProgbar target :: EvProgbarUpdate 0 :: evs)
    /\ count_events is_EvPredict evs = Z.to_nat target
    /\ count_events is_EvProgbarAdd evs = Z.to_nat target.
Proof.
  destruct (predict_from_array volume64 voxelwise_predictor [2; 2; 2]%nat
              (Some keep) 3 []) as [[out | e] tr'] eqn:Hrun.
  - assert (Hbs : (0 < 3)%Z) by lia.
    destruct (progress_reaches_target _ _ _ _ _ Hbs Hrun)
      as (target & evs & -> & Hp & Ha).
    exists out, target, evs. auto.
  - vm_compute in Hrun. discriminate Hrun.
Defined.

Lemma one_chunk_when_batch_size_covers_witness :
  predict_from_array volume64 voxelwise_predictor [2; 2; 2]%nat (Some keep)
    100 []
  = (Ref.from_blocks (stored blocks64 (voxelwise_labels blocks64))
       (shape volume64),
     [EvProgbar 1; EvProgbarUpdate 0; EvPredict (add_axis blocks64);
      EvProgbarAdd 1]).
Proof.
  apply (one_chunk_when_batch_size_covers (C := collaborators))
    with (feats := volume64) (n := 8%nat) (rest := [2; 2; 2]%nat).
  - reflexivity.
  - vm_compute. reflexivity.
  - reflexivity.
  - vm_compute. reflexivity.
  - lia.
  - lia.
  - vm_compute. reflexivity.
  - reflexivity.
Defined.

Lemma predictor_error_propagates_witness :
  predict_from_array volume64 failing_predictor [2; 2; 2]%nat (Some keep)
    3 []
  = (Err (Raised "InvalidArgumentError"),
     [EvProgbar 3; EvProgbarUpdate 0; EvPredict first_chunk64]).
Proof.
  apply (predictor_error_propagates (C := collaborators))
    with (feats := volume64) (blocks := blocks64) (chunk := first_chunk64).
  - reflexivity.
  - vm_compute. reflexivity.
  - cbn. lia.
  - lia.
  - vm_compute. reflexivity.
  - reflexivity.
Defined.

Lemma missing_class_ids_is_key_error_witness :
  predict_from_array volume64 probabilities_predictor [2; 2; 2]%nat
    (Some keep) 3 []
  = (Err (KeyError "class_ids"),
     [EvProgbar 3; EvProgbarUpdate 0; EvPredict first_chunk64]).
Proof.
  apply (missing_class_ids_is_key_error (C := collaborators))
    with (feats := volume64) (blocks := blocks64) (chunk := first_chunk64)
         (out := [("probabilities"%string,
                   mk_ndarray "float32" (removelast (shape first_chunk64))
                     (data first_chunk64))]).
  - reflexivity.
  - vm_compute. reflexivity.
  - cbn. lia.
  - lia.
  - vm_compute. reflexivity.
  - reflexivity.
  - reflexivity.
Defined.

Lemma prediction_is_reassembled_labels_witness :
  fst (predict_from_array volume64 voxelwise_predictor [2; 2; 2]%nat
         (Some keep) 3 [])
  = Ok (mk_ndarray "float32" (shape volume64) (data volume64)).
Proof.
  rewrite (prediction_is_reassembled_labels (C := collaborators))
    with (feats := volume64) (blocks := blocks64)
         (full := voxelwise_labels blocks64).
  - vm_compute. reflexivity.
  - reflexivity.
  - vm_compute. reflexivity.
  - discriminate.
  - cbn. lia.
  - reflexivity.
  - vm_compute. reflexivity.
  - vm_compute. reflexivity.
  - apply voxelwise_blockwise. discriminate.
  - lia.
Defined.

End FurtherRuns.
